(** * python-sonoffdiy: the request/response layer and the device model

    A shallow embedding of [sonoffdiy/const.py], [sonoffdiy/exceptions.py],
    [sonoffdiy/models.py] and [sonoffdiy/sonoffdiy.py].

    - Python values that can come out of a JSON decoder are the type [value];
      a [dict] with string keys is a [gmap string value].
    - Exceptions are the type [exn]; a computation that may raise returns a
      [result].
    - The methods of the class [SonoffDIY] are computations in a state and
      exception monad over [world]: the object itself ([self]) and the log of
      the calls made to [session.request].
    - What the interpreter and aiohttp provide ([json.loads], [dict.update]
      with a non-mapping argument, the peer on the network) is a parameter of
      the development. *)

From Stdlib Require Import ZArith String Ascii List Lia.
From Stdlib Require Import Floats.PrimFloat Numbers.Cyclic.Int63.Uint63.
From stdpp Require Import base option gmap strings list fin_maps.

Local Open Scope string_scope.
Local Open Scope Z_scope.

#[local] Set Warnings "-register-all".

(** ** Python values *)

Inductive value :=
| VNone
| VBool (b : bool)
| VInt (n : Z)
| VFloat (f : float)
| VStr (s : string)
| VList (l : list value)
| VDict (d : gmap string value).

(** [s in t] for two [str]: [s] is a substring of [t]. *)
Fixpoint str_in (s t : string) : bool :=
  String.prefix s t ||
  match t with
  | EmptyString => false
  | String _ t' => str_in s t'
  end.

(** [v == s] where [s] is a [str] literal: only an equal [str] is equal. *)
Definition py_eq_str (v : value) (s : string) : bool :=
  match v with
  | VStr s' => String.eqb s' s
  | _ => false
  end.

(** The float of a small integer literal (exact below 2^53). *)
Definition Z_to_float (z : Z) : float :=
  match z with
  | Z0 => PrimFloat.zero
  | Zpos _ => PrimFloat.of_uint63 (Uint63.of_Z z)
  | Zneg _ => PrimFloat.opp (PrimFloat.of_uint63 (Uint63.of_Z (- z)))
  end.

(** ** exceptions.py *)

Module exceptions.

(** A [SonoffDIYError] carries a message and, where the code passes one,
    a second argument with the offending response.
    [SonoffDIYConnectionError] is its subclass.  [PyError cls] stands for
    an exception of a class outside this hierarchy (a builtin such as
    [TypeError], or [json.JSONDecodeError]). *)
Inductive exn :=
| SonoffDIYError (msg : string) (detail : option value)
| SonoffDIYConnectionError (msg : string)
| PyError (cls : string).

(** [isinstance(e, SonoffDIYError)], which is what
    [except SonoffDIYError] tests. *)
Definition is_SonoffDIYError (e : exn) : bool :=
  match e with
  | SonoffDIYError _ _ | SonoffDIYConnectionError _ => true
  | PyError _ => false
  end.

Inductive result (A : Type) :=
| Ok (a : A)
| Raise (e : exn).
Arguments Ok {A} a.
Arguments Raise {A} e.

Definition result_bind {A B} (f : A -> result B) (r : result A) : result B :=
  match r with
  | Ok a => f a
  | Raise e => Raise e
  end.

End exceptions.
Export exceptions.

#[global] Instance result_ret : MRet result := fun _ a => Ok a.
#[global] Instance result_mbind : MBind result := fun _ _ f r => result_bind f r.

(** ** Arithmetic and comparison of a value with an [int] literal *)

(** [v <= k]; raises [TypeError] unless [v] is a number ([bool] is a subclass
    of [int]). *)
Definition py_le (v : value) (k : Z) : result bool :=
  match v with
  | VInt n => Ok (n <=? k)
  | VBool b => Ok (Z.b2z b <=? k)
  | VFloat f => Ok (PrimFloat.leb f (Z_to_float k))
  | _ => Raise (PyError "TypeError")
  end.

(** [v >= k]. *)
Definition py_ge (v : value) (k : Z) : result bool :=
  match v with
  | VInt n => Ok (n >=? k)
  | VBool b => Ok (Z.b2z b >=? k)
  | VFloat f => Ok (PrimFloat.leb (Z_to_float k) f)
  | _ => Raise (PyError "TypeError")
  end.

(** [v + k]. *)
Definition py_add (v : value) (k : Z) : result value :=
  match v with
  | VInt n => Ok (VInt (n + k))
  | VBool b => Ok (VInt (Z.b2z b + k))
  | VFloat f => Ok (VFloat (PrimFloat.add f (Z_to_float k)))
  | _ => Raise (PyError "TypeError")
  end.

(** [k * v] for a number [v]. *)
Definition py_mul (k : Z) (v : value) : result value :=
  match v with
  | VInt n => Ok (VInt (k * n))
  | VBool b => Ok (VInt (k * Z.b2z b))
  | VFloat f => Ok (VFloat (PrimFloat.mul (Z_to_float k) f))
  | _ => Raise (PyError "TypeError")
  end.

(** ** const.py *)

Module const.

Definition ERROR_CODES : gmap Z string :=
  list_to_map
    [ (400, "Request body is not valid JSON");
      (401, "Unauthorized request");
      (403, "OTA function is locked");
      (404, "Device does not support requested Device ID");
      (408, "Timeout while downloading firmware");
      (413, "OTA firmware exceeds device allowed size limit");
      (422, "Invalid request parameters");
      (424, "Firmware download failed");
      (471, "Firmware integrity check failed");
      (500, "Device ID or API key is not authorized by vendor's OTA service");
      (503, "Could not connect to vendor's OTA unlock service") ].

Definition STATE_OFF : string := "off".
Definition STATE_ON : string := "on".
Definition STATE_RESTORE : string := "restore".
Definition STATE_STAY : string := "stay".

End const.
Export const.

(** ** models.py *)

Module Info.

(** The attrs class is frozen and validates nothing: a field holds whatever
    [from_dict] put there, so the fields read straight from the response
    are [value]s. *)
Record t := mk {
  device_id : string;
  on : bool;
  ota_unlock : value;
  power_on_state : value;
  pulse_width : value;
  pulse : bool;
  signal_strength_percentage : value;
  signal_strength : value;
  ssid : value;
}.

(** [data.get(key, dflt)] *)
Definition get (data : gmap string value) (key : string) (dflt : value) : value :=
  default dflt (data !! key).

Definition from_dict (device_id : string) (data : gmap string value) : result t :=
  let signal_strength := get data "signalStrength" (VInt (-100)) in
  signal_strength_percentage ←
    (le ← py_le signal_strength (-100);
     if le : bool then Ok (VInt 0)
     else
       ge ← py_ge signal_strength (-50);
       if ge : bool then Ok (VInt 100)
       else py_add signal_strength 100 ≫= py_mul 2);
  let power_on_state := get data "startup" (VStr STATE_OFF) in
  let power_on_state :=
    if py_eq_str power_on_state STATE_STAY then VStr STATE_RESTORE
    else power_on_state in
  Ok {| device_id := device_id;
        on := py_eq_str (get data "switch" VNone) STATE_ON;
        ota_unlock := get data "otaUnlock" (VBool false);
        power_on_state := power_on_state;
        pulse_width := get data "pulseWidth" (VInt 0);
        pulse := py_eq_str (get data "pulse" VNone) STATE_ON;
        signal_strength_percentage := signal_strength_percentage;
        signal_strength := signal_strength;
        ssid := get data "ssid" (VStr EmptyString) |}.

End Info.

(** ** The HTTP exchange, as the client sees it *)

Module http.

(** One call of [session.request]: a POST to
    [http://host:port/zeroconf/] joined with [uri], whose JSON body is
    [{deviceid: ..., data: ...}]. *)
Record request := {
  rq_host : string;
  rq_port : Z;
  rq_uri : string;
  rq_deviceid : string;
  rq_data : gmap string value;
  rq_user_agent : string;
  rq_timeout : Z;
}.

(** What [await response.text()] ends in: the body as text, or an exception
    of the named class ([UnicodeDecodeError] for a body that does not decode,
    [ClientPayloadError] for one that cannot be read to its end). *)
Inductive body :=
| Text (s : string)
| TextError (cls : string).

(** An aiohttp response, by what the client reads from it: the status, the
    Content-Type header if there is one, [await response.text()] and
    [await response.json()] ([None] when it raises: [JSONDecodeError] for a
    body that is no JSON, or an error of aiohttp's own, which the client
    catches no more than the first). *)
Record response := {
  status : Z;
  content_type : option string;
  text : body;
  json : option value;
}.

(** What awaiting the call under [async_timeout] ends in. *)
Inductive outcome :=
| TimedOut                      (* asyncio.TimeoutError *)
| ClientError                   (* aiohttp.ClientError, socket.gaierror *)
| OtherError (cls : string)     (* an exception no except clause names *)
| Responded (r : response).

(** [response.raise_for_status()] raises [ClientResponseError] for a status
    of 400 and above, and for no other. *)
Definition raise_for_status (r : response) : bool := 400 <=? status r.

(** The peer: its answer to a request, given the requests made before. *)
Definition network := list request -> request -> outcome.

End http.

(** ** What the interpreter provides *)

Class Runtime := {
  (** [json.loads]; [None] when it raises [json.JSONDecodeError]. *)
  json_loads : string -> option value;
  (** [d.update(x)] for an [x] that is no mapping, which Python reads as a
      sequence of key/value pairs; [None] when it raises. *)
  dict_update_seq : gmap string value -> value -> option (gmap string value);
}.

(** [key in v] *)
Definition py_contains (key : string) (v : value) : result bool :=
  match v with
  | VDict d => Ok (bool_decide (is_Some (d !! key)))
  | VList l => Ok (existsb (fun x => py_eq_str x key) l)
  | VStr s => Ok (str_in key s)
  | _ => Raise (PyError "TypeError")
  end.

(** [v[key]] *)
Definition py_getitem (v : value) (key : string) : result value :=
  match v with
  | VDict d =>
      match d !! key with
      | Some x => Ok x
      | None => Raise (PyError "KeyError")
      end
  | _ => Raise (PyError "TypeError")
  end.

(** [v != 0] *)
Definition py_ne_0 (v : value) : bool :=
  match v with
  | VInt n => negb (n =? 0)
  | VBool b => b
  | VFloat f => negb (PrimFloat.eqb f PrimFloat.zero)
  | _ => true
  end.

(** [ERROR_CODES.get(v, dflt)]: a number finds the key it is equal to, a list
    or a dict is unhashable. *)
Definition ERROR_CODES_get (v : value) (dflt : string) : result string :=
  match v with
  | VInt n => Ok (default dflt (ERROR_CODES !! n))
  | VBool b => Ok (default dflt (ERROR_CODES !! Z.b2z b))
  | VFloat f =>
      Ok (default dflt
            (snd <$> List.find (fun kv => PrimFloat.eqb f (Z_to_float (fst kv)))
                       (map_to_list ERROR_CODES)))
  | VNone | VStr _ => Ok dflt
  | VList _ | VDict _ => Raise (PyError "TypeError")
  end.

(** ** sonoffdiy.py *)

Module SonoffDIY.

(** The attributes of the object.  The aiohttp session and the event loop
    it owns are not modelled: the calls made through the session are
    logged in [world]. *)
Record t := mk {
  host : string;
  device_id : string;
  port : Z;
  request_timeout : Z;
  user_agent : string;
  info : option Info.t;
}.

(** [__init__], with the version string of the package as a parameter. *)
Definition init (version host : string) (device_id : string) (port : Z)
    (request_timeout : Z) (user_agent : option string) : t :=
  {| host := host;
     device_id := device_id;
     port := port;
     request_timeout := request_timeout;
     user_agent := default ("PythonSonoffDIY/" ++ version)%string user_agent;
     info := None |}.

Record world := {
  self : t;
  requests : list http.request;
}.

(** A method body: it reads and writes the world, and returns or raises.
    The world a raise leaves behind is kept. *)
Definition M (A : Type) : Type := world -> result A * world.

Definition ret {A} (a : A) : M A := fun w => (Ok a, w).

Definition bind {A B} (m : M A) (k : A -> M B) : M B :=
  fun w =>
    match m w with
    | (Ok a, w') => k a w'
    | (Raise e, w') => (Raise e, w')
    end.

Definition raise {A} (e : exn) : M A := fun w => (Raise e, w).

Definition lift {A} (r : result A) : M A := fun w => (r, w).

(** [try: body / except cls as e: handler], where [handles] is
    [isinstance(e, cls)]. *)
Definition try_except {A} (body : M A) (handles : exn -> bool)
    (handler : exn -> M A) : M A :=
  fun w =>
    match body w with
    | (Ok a, w') => (Ok a, w')
    | (Raise e, w') => if handles e then handler e w' else (Raise e, w')
    end.

Definition get_self : M t := fun w => (Ok (self w), w).

(** [self.info = i] *)
Definition set_info (i : option Info.t) : M unit :=
  fun w =>
    let s := self w in
    (Ok tt,
     {| self := {| host := host s; device_id := device_id s; port := port s;
                   request_timeout := request_timeout s;
                   user_agent := user_agent s; info := i |};
        requests := requests w |}).

Declare Scope py_scope.
Delimit Scope py_scope with py.
Notation "x <- m ; k" := (bind m (fun x => k))
  (at level 100, m at next level, right associativity) : py_scope.
Notation "m ;; k" := (bind m (fun _ => k))
  (at level 100, right associativity) : py_scope.
Local Open Scope py_scope.

(** The POST that [_request] makes for [uri] and [data]: the URL is
    [http://host:port/zeroconf/] joined with [uri], the body is
    [{deviceid: self.device_id, data: data or {}}]. *)
Definition request_of (self : t) (uri : string)
    (data : option (gmap string value)) : http.request :=
  {| http.rq_host := host self;
     http.rq_port := port self;
     http.rq_uri := uri;
     http.rq_deviceid := device_id self;
     http.rq_data := default ∅ data;
     http.rq_user_agent := user_agent self;
     http.rq_timeout := request_timeout self |}.

(** The world after one more call of [session.request]. *)
Definition logged (w : world) (rq : http.request) : world :=
  {| self := self w; requests := requests w ++ [rq] |}.

Section Methods.

Context `{Runtime} (net : http.network).

(** [await self._session.request(...)] under the timeout: the call is
    logged and the peer answers. *)
Definition session_request (rq : http.request) : M http.outcome :=
  fun w => (Ok (net (requests w) rq), logged w rq).

Definition _request (uri : string) (data : option (gmap string value))
  : M value :=
  self <- get_self;
  outcome <- session_request (request_of self uri data);
  response <-
    match outcome with
    | http.TimedOut =>
        raise (SonoffDIYConnectionError
                 "Timeout occurred while connecting to Sonoff DIY device")
    | http.ClientError =>
        raise (SonoffDIYConnectionError
                 "Error occurred while communicating with Sonoff DIY device")
    | http.OtherError cls => raise (PyError cls)
    | http.Responded response =>
        if http.raise_for_status response
        then raise (SonoffDIYConnectionError
                 "Error occurred while communicating with Sonoff DIY device")
        else ret response
    end;
  let content_type := default EmptyString (http.content_type response) in
  if negb (str_in "application/json" content_type)
  then
    text <-
      match http.text response with
      | http.Text text => ret text
      | http.TextError cls => raise (PyError cls)
      end;
    raise (SonoffDIYError "Unexpected response from Sonoff DIY device"
             (Some (VDict (<["Content-Type" := VStr content_type]>
                           (<["response" := VStr text]> ∅)))))
  else
    response_data <-
      match http.json response with
      | Some v => ret v
      | None => raise (PyError "JSONDecodeError")
      end;
    has_error <- lift (py_contains "error" response_data);
    if negb has_error
    then raise (SonoffDIYError "Unexpected response from Sonoff DIY device"
                  (Some response_data))
    else
      code <- lift (py_getitem response_data "error");
      if py_ne_0 code
      then
        error <- lift (ERROR_CODES_get code "Unknown error occurred");
        raise (SonoffDIYError error (Some response_data))
      else
        has_data <- lift (py_contains "data" response_data);
        if negb has_data
        then ret VNone
        else
          payload <- lift (py_getitem response_data "data");
          match payload with
          | VStr s =>
              match json_loads s with
              | Some v => ret v
              | None => raise (PyError "JSONDecodeError")
              end
          | _ => ret payload
          end.

(** [data.update(signal_strength)] on the value [data].  For a sequence that
    Python refuses the exception is a TypeError or a ValueError, by the
    element that is refused; the model names the first for both. *)
Definition update (data signal_strength : value) : M value :=
  match data with
  | VDict d =>
      match signal_strength with
      | VDict s => ret (VDict (s ∪ d))
      | _ =>
          match dict_update_seq d signal_strength with
          | Some d' => ret (VDict d')
          | None => raise (PyError "TypeError")
          end
      end
  | _ => raise (PyError "AttributeError")
  end.

Definition update_info : M Info.t :=
  p <- try_except
         (data <- _request "info" None;
          signal_strength <- _request "signal_strength" None;
          ret (data, signal_strength))
         is_SonoffDIYError
         (fun exception => set_info None;; raise exception);
  let data := fst p in
  let signal_strength := snd p in
  match data with
  | VNone =>
      set_info None;;
      raise (SonoffDIYError "Did not receive data from Sonoff DIY device" None)
  | _ =>
      data <- match signal_strength with
              | VNone => ret data
              | _ => update data signal_strength
              end;
      self <- get_self;
      i <- match data with
           | VDict d => lift (Info.from_dict (device_id self) d)
           | _ => raise (PyError "AttributeError")
           end;
      set_info (Some i);;
      ret i
  end.

Definition turn_on : M unit :=
  _request "switch" (Some {[ "switch" := VStr STATE_ON ]});; ret tt.

Definition turn_off : M unit :=
  _request "switch" (Some {[ "switch" := VStr STATE_OFF ]});; ret tt.

Definition pulse_on (pulse_width : option Z) : M unit :=
  let data : gmap string value := {[ "pulse" := VStr STATE_ON ]} in
  let data :=
    match pulse_width with
    | Some n => <["pulse_width" := VInt n]> data
    | None => data
    end in
  _request "pulse" (Some data);; ret tt.

Definition pulse_off : M unit :=
  _request "pulse" (Some {[ "pulse" := VStr STATE_OFF ]});; ret tt.

Definition pulse_width (pulse_width : Z) : M unit :=
  update_info;;
  self <- get_self;
  let pulse :=
    if match info self with Some i => Info.pulse i | None => false end
    then STATE_ON else STATE_OFF in
  _request "pulse"
    (Some (<["pulse" := VStr pulse]>
           (<["pulse_width" := VInt pulse_width]> ∅)));;
  ret tt.

Definition wifi (ssid password : string) : M unit :=
  _request "wifi"
    (Some (<["ssid" := VStr ssid]> (<["password" := VStr password]> ∅)));;
  ret tt.

Definition ota_unlock : M unit :=
  _request "ota_unlock" None;; ret tt.

Definition ota_flash (url sha : string) : M unit :=
  _request "ota_flash"
    (Some (<["downloadUrl" := VStr url]> (<["sha256sum" := VStr sha]> ∅)));;
  ret tt.

Definition power_on_state (state : string) : M unit :=
  if negb (existsb (String.eqb state)
             [STATE_ON; STATE_OFF; STATE_RESTORE; STATE_STAY])
  then raise (SonoffDIYError
                "Invalid startup value, accepted: on, off, restore" None)
  else
    (* Translate restore back to stay *)
    let state := if String.eqb state STATE_RESTORE then STATE_STAY else state in
    _request "startup" (Some {[ "startup" := VStr state ]});; ret tt.

End Methods.

End SonoffDIY.

(** ** A JSON decoder for the examples

    The results below hold for every [Runtime].  To run the client on the
    response texts of the test-suite, [decoder.loads] decodes the JSON that
    has integer numbers only and no [\u] escapes, and fails elsewhere. *)

Module decoder.

Local Open Scope char_scope.

Definition dquote : ascii := "034".
Definition backslash : ascii := "092".

Definition is_ws (c : ascii) : bool :=
  Ascii.eqb c " " || Ascii.eqb c "009" || Ascii.eqb c "010" || Ascii.eqb c "013".

Definition digit (c : ascii) : option Z :=
  let n := Z.of_N (N_of_ascii c) in
  if ((48 <=? n) && (n <=? 57))%Z then Some (n - 48) else None.

Fixpoint skip_ws (s : string) : string :=
  match s with
  | String c s' => if is_ws c then skip_ws s' else s
  | EmptyString => s
  end.

(** The digits at the head of [s], as a number, and what follows them. *)
Fixpoint digits (acc : Z) (s : string) : Z * string :=
  match s with
  | String c s' =>
      match digit c with
      | Some d => digits (10 * acc + d) s'
      | None => (acc, s)
      end
  | EmptyString => (acc, s)
  end.

(** An integer without sign: one digit at least, no leading zero, and no
    fraction or exponent after it. *)
Definition natural (s : string) : option (Z * string) :=
  match s with
  | String c s' =>
      match digit c with
      | Some d =>
          let '(n, rest) := digits d s' in
          let leading_zero :=
            (d =? 0)%Z && negb (String.eqb rest s') in
          let more :=
            match rest with
            | String c' _ => Ascii.eqb c' "." || Ascii.eqb c' "e" || Ascii.eqb c' "E"
            | EmptyString => false
            end in
          if leading_zero || more then None else Some (n, rest)
      | None => None
      end
  | EmptyString => None
  end.

(** The characters of a string literal after its opening quote, up to the
    closing one. *)
Fixpoint chars (s : string) : option (string * string) :=
  match s with
  | EmptyString => None
  | String c s' =>
      if Ascii.eqb c dquote then Some (EmptyString, s')
      else if Ascii.eqb c backslash then
        match s' with
        | String e s'' =>
            let unescaped :=
              if Ascii.eqb e dquote then Some dquote
              else if Ascii.eqb e backslash then Some backslash
              else if Ascii.eqb e "/" then Some "/"
              else if Ascii.eqb e "b" then Some "008"
              else if Ascii.eqb e "f" then Some "012"
              else if Ascii.eqb e "n" then Some "010"
              else if Ascii.eqb e "r" then Some "013"
              else if Ascii.eqb e "t" then Some "009"
              else None in
            match unescaped, chars s'' with
            | Some u, Some (body, rest) => Some (String u body, rest)
            | _, _ => None
            end
        | EmptyString => None
        end
      else if (Z.of_N (N_of_ascii c) <? 32)%Z then None
      else
        match chars s' with
        | Some (body, rest) => Some (String c body, rest)
        | None => None
        end
  end.

(** [s] without the prefix [p], if it starts with it. *)
Fixpoint strip (p s : string) : option string :=
  match p, s with
  | EmptyString, _ => Some s
  | String a p', String b s' => if Ascii.eqb a b then strip p' s' else None
  | String _ _, EmptyString => None
  end.

Fixpoint element (fuel : nat) (s : string) : option (value * string) :=
  match fuel with
  | O => None
  | S fuel =>
      match skip_ws s with
      | EmptyString => None
      | String c s' =>
          if Ascii.eqb c "n" then rest ← strip "ull" s'; Some (VNone, rest)
          else if Ascii.eqb c "t" then rest ← strip "rue" s'; Some (VBool true, rest)
          else if Ascii.eqb c "f" then rest ← strip "alse" s'; Some (VBool false, rest)
          else if Ascii.eqb c dquote then
            '(body, rest) ← chars s'; Some (VStr body, rest)
          else if Ascii.eqb c "-" then
            '(n, rest) ← natural s'; Some (VInt (- n), rest)
          else if Ascii.eqb c "[" then
            match skip_ws s' with
            | String "]" rest => Some (VList [], rest)
            | _ => '(l, rest) ← elements fuel s'; Some (VList l, rest)
            end
          else if Ascii.eqb c "{" then
            match skip_ws s' with
            | String "}" rest => Some (VDict ∅, rest)
            | _ => '(d, rest) ← members fuel ∅ s'; Some (VDict d, rest)
            end
          else
            '(n, rest) ← natural (String c s'); Some (VInt n, rest)
      end
  end
with elements (fuel : nat) (s : string) : option (list value * string) :=
  match fuel with
  | O => None
  | S fuel =>
      '(v, rest) ← element fuel s;
      match skip_ws rest with
      | String "," rest' => '(l, rest'') ← elements fuel rest'; Some (v :: l, rest'')
      | String "]" rest' => Some ([v], rest')
      | _ => None
      end
  end
with members (fuel : nat) (acc : gmap string value) (s : string)
  : option (gmap string value * string) :=
  match fuel with
  | O => None
  | S fuel =>
      match skip_ws s with
      | String c s' =>
          if Ascii.eqb c dquote then
            '(key, rest) ← chars s';
            match skip_ws rest with
            | String ":" rest' =>
                '(v, rest'') ← element fuel rest';
                let acc := <[key := v]> acc in
                match skip_ws rest'' with
                | String "," rest3 => members fuel acc rest3
                | String "}" rest3 => Some (acc, rest3)
                | _ => None
                end
            | _ => None
            end
          else None
      | EmptyString => None
      end
  end.

Definition loads (s : string) : option value :=
  '(v, rest) ← element (S (String.length s)) s;
  match skip_ws rest with
  | EmptyString => Some v
  | String _ _ => None
  end.

(** A JSON text written with apostrophes where JSON has quotation marks. *)
Fixpoint dq (s : string) : string :=
  match s with
  | EmptyString => EmptyString
  | String c s' => String (if Ascii.eqb c "'" then dquote else c) (dq s')
  end.

(** [dict.update] with a sequence: the empty list and the empty string
    have no pairs, the other cases are left out (as raising). *)
Definition update_seq (d : gmap string value) (x : value)
  : option (gmap string value) :=
  match x with
  | VList [] => Some d
  | VStr EmptyString => Some d
  | _ => None
  end.

Definition runtime : Runtime :=
  {| json_loads := loads; dict_update_seq := update_seq |}.

End decoder.

(** ** Fixtures: the devices of the test-suite *)

Module fixture.

Import SonoffDIY decoder.

(** A body of white space only, for which [response.json()] returns None
    without decoding. *)
Fixpoint blank (s : string) : bool :=
  match s with
  | EmptyString => true
  | String c s' =>
      (is_ws c || Ascii.eqb c "011"%char || Ascii.eqb c "012"%char) && blank s'
  end.

(** A response with a JSON content type, as [aresponses.Response] builds
    it from a status and a text. *)
Definition json_response (status : Z) (text : string) : http.response :=
  {| http.status := status;
     http.content_type := Some "application/json";
     http.text := http.Text text;
     http.json := if blank text then Some VNone else loads text |}.

(** A response with another content type, or none. *)
Definition plain_response (status : Z) (content_type : option string)
    (text : string) : http.response :=
  {| http.status := status;
     http.content_type := content_type;
     http.text := http.Text text;
     http.json := None |}.

(** A peer that answers by the path of the request, and refuses the
    connection on a path it does not know. *)
Definition routes (table : list (string * http.response)) : http.network :=
  fun _ rq =>
    match List.find (fun e => String.eqb (fst e) (http.rq_uri rq)) table with
    | Some e => http.Responded (snd e)
    | None => http.ClientError
    end.

Definition diy : SonoffDIY.t :=
  SonoffDIY.init EmptyString "example.com" "100090ab1a" 8081 3
    (Some "LoremIpsum/1.0").

Definition fresh : world := {| self := diy; requests := [] |}.

(** A snapshot of an earlier fetch, and the object that still holds it. *)
Definition earlier : Info.t :=
  Info.mk "100090ab1a" true (VBool true) (VStr "restore") (VInt 1500)
    false (VInt 100) (VInt (-48)) (VStr "frenck").

Definition primed : world :=
  {| self := SonoffDIY.mk "example.com" "100090ab1a" 8081 3 "LoremIpsum/1.0"
               (Some earlier);
     requests := [] |}.

Definition info_text : string :=
  dq ("{'seq': 6,'error': 0,'data': "
      ++ "'{\'switch\':\'on\',\'startup\':\'stay\',"
      ++ "\'pulse\':\'off\',\'pulseWidth\':1500,"
      ++ "\'ssid\':\'frenck\',\'otaUnlock\':true}'}").

Definition signal_text : string :=
  dq "{'seq': 26, 'error': 0, 'data': {'signalStrength': -48}}".

Definition ok_text : string := dq "{'seq': 1, 'error': 0}".

End fixture.

(** ** examples/control.py *)

Module control.

Import SonoffDIY.

(** The object that [main] makes. *)
Definition diy (version : string) : SonoffDIY.t :=
  SonoffDIY.init version "10.10.10.197" "100090bc7b" 8081 3 None.

(** The body of [main] under [async with]: fetch the state, then switch
    the device to the other state.  What [print] writes is not part of the
    world. *)
Definition main `{Runtime} (net : http.network) : M unit :=
  (info <- update_info net;
   if negb (Info.on info) then turn_on net else turn_off net)%py.

End control.

(** ** The session of the object

    The bookkeeping of the aiohttp session in [__init__], at the head of
    [_request] and in [close], which the world of [SonoffDIY] leaves out.
    A session is one the caller made or one the object made itself. *)

Module session.

Inductive session :=
| Supplied (n : nat)
| Created (n : nat).

(** [self._session] and [self._close_session]. *)
Record t := mk {
  _session : option session;
  _close_session : bool;
}.

(** How many sessions the object has made, and the sessions whose
    [close()] was awaited, the last one first. *)
Record pool := {
  made : nat;
  closed : list session;
}.

(** [__init__]: the session is the argument, which defaults to None. *)
Definition init (session : option session) : t :=
  {| _session := session; _close_session := false |}.

(** [_request], up to the call: without a session the object makes one
    and notes that it has to close it. *)
Definition _request (o : t) (p : pool) : t * pool :=
  match _session o with
  | None =>
      ({| _session := Some (Created (made p)); _close_session := true |},
       {| made := S (made p); closed := closed p |})
  | Some _ => (o, p)
  end.

(** [close] *)
Definition close (o : t) (p : pool) : t * pool :=
  match _session o with
  | Some s =>
      if _close_session o
      then (o, {| made := made p; closed := s :: closed p |})
      else (o, p)
  | None => (o, p)
  end.

(** [__aenter__] returns the object, [__aexit__] closes. *)
Definition __aenter__ (o : t) (p : pool) : t * pool := (o, p).
Definition __aexit__ (o : t) (p : pool) : t * pool := close o p.

(** What a caller does with the object, in order. *)
Inductive call := Request | Close.

Definition step (c : call) (op : t * pool) : t * pool :=
  match c with
  | Request => _request (fst op) (snd op)
  | Close => close (fst op) (snd op)
  end.

Definition run (calls : list call) (op : t * pool) : t * pool :=
  fold_left (fun op c => step c op) calls op.

End session.

(** The state of an object without a supplied session: before its first
    request it has no session, after it, it has the one session it made and
    has to close it; and what it has closed since is that session only. *)
Definition own_session_invariant (p0 : session.pool)
    (op : session.t * session.pool) : Prop :=
  (fst op = session.init None /\ snd op = p0) \/
  (fst op = session.mk (Some (session.Created (session.made p0))) true /\
   session.made (snd op) = S (session.made p0) /\
   exists k,
     session.closed (snd op) =
       (repeat (session.Created (session.made p0)) k ++ session.closed p0)%list).

(** ** The stages of [update_info]

    Names for the worlds that [update_info] goes through and for what it
    does once both calls have returned, as the proofs refer to them. *)

Module stages.

Import SonoffDIY.

(** [self.info = None] on a world. *)
Definition forget (w : world) : world := snd (set_info None w).

(** The worlds after the first and after the second call. *)
Definition after_info (w : world) : world :=
  logged w (request_of (self w) "info" None).

Definition after_signal (w : world) : world :=
  logged (after_info w) (request_of (self w) "signal_strength" None).

(** The rest of [update_info], from the test for missing data on. *)
Definition finish `{Runtime} (data signal_strength : value) : M Info.t :=
  (match data with
   | VNone =>
       set_info None;;
       raise (SonoffDIYError "Did not receive data from Sonoff DIY device" None)
   | _ =>
       data <- match signal_strength with
               | VNone => ret data
               | _ => update data signal_strength
               end;
       self <- get_self;
       i <- match data with
            | VDict d => lift (Info.from_dict (device_id self) d)
            | _ => raise (PyError "AttributeError")
            end;
       set_info (Some i);;
       ret i
   end)%py.

End stages.

(** ** Tactics *)

Import SonoffDIY stages.

Ltac step := cbn beta iota delta [fst snd negb py_contains py_getitem].

Ltac run_request :=
  unfold _request, bind, get_self, session_request, raise, ret, lift; step.

Ltac run_facade :=
  cbn beta iota delta
    [fst snd bind ret raise lift try_except get_self set_info update
     self requests info logged].

(** * Properties *)

(** ** The test-suite, run on the model *)

Example from_dict_test_info_update :
  Info.from_dict "100090ab1a"
    (list_to_map [("switch", VStr "on"); ("startup", VStr "stay");
                  ("pulse", VStr "off"); ("pulseWidth", VInt 1500);
                  ("ssid", VStr "frenck"); ("otaUnlock", VBool true);
                  ("signalStrength", VInt (-48))])
  = Ok (Info.mk "100090ab1a" true (VBool true) (VStr "restore") (VInt 1500)
          false (VInt 100) (VInt (-48)) (VStr "frenck")).
Proof. vm_compute. reflexivity. Qed.

Example loads_object :
  decoder.loads (decoder.dq "{'seq': 26, 'error': 0, 'data': {'test': 'ok'}}")
  = Some (VDict (list_to_map
            [("seq", VInt 26); ("error", VInt 0);
             ("data", VDict (list_to_map [("test", VStr "ok")]))])).
Proof. vm_compute. reflexivity. Qed.

Example loads_encoded :
  (d ← decoder.loads
         (decoder.dq "{'seq': 26, 'error': 0, 'data': '{\'test\': \'ok\'}'}");
   match d with
   | VDict d => match d !! "data" with
                | Some (VStr s) => decoder.loads s
                | _ => None
                end
   | _ => None
   end)
  = Some (VDict (list_to_map [("test", VStr "ok")])).
Proof. vm_compute. reflexivity. Qed.

Example loads_garbage : decoder.loads "Invalid response" = None.
Proof. vm_compute. reflexivity. Qed.

(** The end-to-end test of the suite, [test_info_update]. *)
Example test_info_update :
  update_info (H := decoder.runtime)
    (fixture.routes [("info", fixture.json_response 200 fixture.info_text);
                     ("signal_strength",
                      fixture.json_response 200 fixture.signal_text)])
    fixture.fresh
  = (Ok fixture.earlier,
     {| self := self fixture.primed;
        requests := [request_of fixture.diy "info" None;
                     request_of fixture.diy "signal_strength" None] |}).
Proof. vm_compute. reflexivity. Qed.

(** [test_timeout] *)
Example test_timeout :
  fst (_request (H := decoder.runtime) (fun _ _ => http.TimedOut)
         "/" None fixture.fresh)
  = Raise (SonoffDIYConnectionError
             "Timeout occurred while connecting to Sonoff DIY device").
Proof. vm_compute. reflexivity. Qed.

(** [test_http_error] *)
Example test_http_error :
  fst (_request (H := decoder.runtime)
         (fixture.routes [("/", fixture.plain_response 404 None "OMG PUPPIES!")])
         "/" None fixture.fresh)
  = Raise (SonoffDIYConnectionError
             "Error occurred while communicating with Sonoff DIY device").
Proof. vm_compute. reflexivity. Qed.

(** [test_info_none] *)
Example test_info_none :
  update_info (H := decoder.runtime)
    (fixture.routes [("info", fixture.json_response 500 "Invalid response")])
    fixture.primed
  = (Raise (SonoffDIYConnectionError
              "Error occurred while communicating with Sonoff DIY device"),
     {| self := fixture.diy;
        requests := [request_of fixture.diy "info" None] |}).
Proof. vm_compute. reflexivity. Qed.

(** [test_power_on_state] *)
Example test_power_on_state :
  power_on_state (H := decoder.runtime)
    (fixture.routes [("startup", fixture.json_response 200 fixture.ok_text)])
    "restore" fixture.fresh
  = (Ok tt,
     {| self := fixture.diy;
        requests := [request_of fixture.diy "startup"
                       (Some {[ "startup" := VStr "stay" ]})] |}).
Proof. vm_compute. reflexivity. Qed.

(** A signal strength with a fraction is compared and scaled as a float. *)
Example from_dict_float :
  Info.signal_strength_percentage
    <$> (match Info.from_dict "id" {[ "signalStrength" := VFloat (-60.5)%float ]} with
         | Ok i => Some i | Raise _ => None end) = Some (VFloat 79%float).
Proof. vm_compute. reflexivity. Qed.

(** ** The normalizer, [Info.from_dict] *)

Section Normalizer.

Variables (device_id : string) (data : gmap string value).

(** With an integer signal strength the percentage is computed on
    integers. *)
Lemma from_dict_int (dbm : Z) :
  Info.get data "signalStrength" (VInt (-100)) = VInt dbm ->
  exists i,
    Info.from_dict device_id data = Ok i /\
    Info.signal_strength i = VInt dbm /\
    Info.signal_strength_percentage i =
      VInt (if dbm <=? -100 then 0
            else if dbm >=? -50 then 100 else 2 * (dbm + 100)) /\
    Info.device_id i = device_id /\
    Info.on i = py_eq_str (Info.get data "switch" VNone) STATE_ON /\
    Info.ota_unlock i = Info.get data "otaUnlock" (VBool false) /\
    Info.pulse_width i = Info.get data "pulseWidth" (VInt 0) /\
    Info.pulse i = py_eq_str (Info.get data "pulse" VNone) STATE_ON /\
    Info.ssid i = Info.get data "ssid" (VStr EmptyString).
Proof.
  intros Hss. unfold Info.from_dict. rewrite Hss. cbn [py_le mbind result_mbind result_bind].
  destruct (dbm <=? -100) eqn:Hle.
  - eexists. split; [reflexivity|]. cbn. tauto.
  - cbn [py_ge mbind result_mbind result_bind].
    destruct (dbm >=? -50) eqn:Hge.
    + eexists. split; [reflexivity|]. cbn. tauto.
    + eexists. split; [reflexivity|]. cbn. tauto.
Qed.

(** The only exception [from_dict] raises is the [TypeError] of comparing
    a signal strength that is no number. *)
Lemma from_dict_raises (e : exn) :
  Info.from_dict device_id data = Raise e -> e = PyError "TypeError".
Proof.
  unfold Info.from_dict.
  destruct (Info.get data "signalStrength" (VInt (-100))) as [|b|n|f| | |];
    cbn [py_le py_ge py_add py_mul mbind result_mbind result_bind];
    try congruence.
  - destruct (Z.b2z b <=? -100); [discriminate|].
    cbn. destruct (Z.b2z b >=? -50); cbn; discriminate.
  - destruct (n <=? -100); [discriminate|].
    cbn. destruct (n >=? -50); cbn; discriminate.
  - destruct (PrimFloat.leb f _); [discriminate|].
    cbn. destruct (PrimFloat.leb _ f); cbn; discriminate.
Qed.

(** The power-on state of a snapshot is never the vendor's word. *)
Lemma from_dict_power_on_state (i : Info.t) :
  Info.from_dict device_id data = Ok i ->
  Info.power_on_state i =
    (if py_eq_str (Info.get data "startup" (VStr STATE_OFF)) STATE_STAY
     then VStr STATE_RESTORE
     else Info.get data "startup" (VStr STATE_OFF)).
Proof.
  unfold Info.from_dict.
  destruct (_ ← py_le _ _; _) as [p|e]; cbn; [|discriminate].
  intros [= <-]. reflexivity.
Qed.

End Normalizer.

Lemma py_eq_str_true (v : value) (s : string) :
  py_eq_str v s = true <-> v = VStr s.
Proof.
  destruct v; cbn; try (split; [discriminate | intros [=]]).
  rewrite String.eqb_eq. split; [intros ->; reflexivity | intros [= ->]; reflexivity].
Qed.

(** C3: for every integer dbm read from the field signalStrength, or -100
    when the field is missing, the snapshot holds that dbm, and its
    percentage is 0 for dbm <= -100, 100 for dbm >= -50 and 2 * (dbm + 100)
    in between. *)
Theorem C3_signal_strength_percentage
    (device_id : string) (data : gmap string value) (dbm : Z)
    (Hdbm : data !! "signalStrength" = Some (VInt dbm) \/
            (data !! "signalStrength" = None /\ dbm = -100)) :
  exists i,
    Info.from_dict device_id data = Ok i /\
    Info.signal_strength i = VInt dbm /\
    (dbm <= -100 -> Info.signal_strength_percentage i = VInt 0) /\
    (dbm >= -50 -> Info.signal_strength_percentage i = VInt 100) /\
    (-100 < dbm < -50 ->
       Info.signal_strength_percentage i = VInt (2 * (dbm + 100))).
Proof.
  assert (Hget : Info.get data "signalStrength" (VInt (-100)) = VInt dbm).
  { unfold Info.get. destruct Hdbm as [-> | [-> ->]]; reflexivity. }
  destruct (from_dict_int device_id data dbm Hget) as (i & Hi & Hs & Hp & _).
  exists i. split; [exact Hi|]. split; [exact Hs|].
  rewrite Hp. repeat split; intros Hr.
  - destruct (Z.leb_spec dbm (-100)); [reflexivity | lia].
  - destruct (Z.leb_spec dbm (-100)); [lia|].
    destruct (Z.geb_spec dbm (-50)); [reflexivity | lia].
  - destruct (Z.leb_spec dbm (-100)); [lia|].
    destruct (Z.geb_spec dbm (-50)); [lia | reflexivity].
Qed.

Lemma C3_witness :
  exists i,
    Info.from_dict "100090ab1a" {[ "signalStrength" := VInt (-60) ]} = Ok i /\
    Info.signal_strength i = VInt (-60) /\
    Info.signal_strength_percentage i = VInt 80.
Proof.
  destruct (C3_signal_strength_percentage "100090ab1a"
              {[ "signalStrength" := VInt (-60) ]} (-60))
    as (i & Hi & Hs & _ & _ & Hp).
  - left. vm_compute. reflexivity.
  - exists i. split; [exact Hi|]. split; [exact Hs|]. apply Hp. lia.
Defined.

Example percentage_minus_48 :
  Info.signal_strength_percentage
    <$> (match Info.from_dict "id" {[ "signalStrength" := VInt (-48) ]} with
         | Ok i => Some i | Raise _ => None end) = Some (VInt 100).
Proof. vm_compute. reflexivity. Qed.

Example percentage_minus_100 :
  Info.signal_strength_percentage
    <$> (match Info.from_dict "id" {[ "signalStrength" := VInt (-100) ]} with
         | Ok i => Some i | Raise _ => None end) = Some (VInt 0).
Proof. vm_compute. reflexivity. Qed.

Example percentage_missing :
  Info.from_dict "id" ∅
  = Ok (Info.mk "id" false (VBool false) (VStr "off") (VInt 0) false
          (VInt 0) (VInt (-100)) (VStr EmptyString)).
Proof. vm_compute. reflexivity. Qed.

(** C8 (as the code has it): for every mapping whose signalStrength, when
    present, is an integer, from_dict succeeds; the percentage is an integer
    between 0 and 100; pulse_width is the pulseWidth field as it was
    received, 0 when it is missing; and every missing key takes its
    default. *)
Theorem C8_from_dict_typed
    (device_id : string) (data : gmap string value)
    (Hss : data !! "signalStrength" = None \/
           exists dbm, data !! "signalStrength" = Some (VInt dbm)) :
  exists i p,
    Info.from_dict device_id data = Ok i /\
    Info.signal_strength_percentage i = VInt p /\ 0 <= p <= 100 /\
    Info.pulse_width i = default (VInt 0) (data !! "pulseWidth") /\
    (data !! "signalStrength" = None -> Info.signal_strength i = VInt (-100)) /\
    (data !! "switch" = None -> Info.on i = false) /\
    (data !! "otaUnlock" = None -> Info.ota_unlock i = VBool false) /\
    (data !! "startup" = None -> Info.power_on_state i = VStr "off") /\
    (data !! "pulse" = None -> Info.pulse i = false) /\
    (data !! "ssid" = None -> Info.ssid i = VStr EmptyString).
Proof.
  assert (Hget : exists dbm,
             Info.get data "signalStrength" (VInt (-100)) = VInt dbm).
  { unfold Info.get. destruct Hss as [-> | [dbm ->]]; eexists; reflexivity. }
  destruct Hget as [dbm Hget].
  destruct (from_dict_int device_id data dbm Hget)
    as (i & Hi & Hs & Hp & _ & Hon & Hota & Hpw & Hpulse & Hssid).
  exists i. eexists. split; [exact Hi|]. split; [exact Hp|].
  split.
  { destruct (dbm <=? -100) eqn:Hle; [lia|].
    destruct (dbm >=? -50) eqn:Hge; [lia|].
    apply Z.leb_gt in Hle. rewrite Z.geb_leb in Hge. apply Z.leb_gt in Hge. lia. }
  split; [exact Hpw|].
  rewrite (from_dict_power_on_state _ _ _ Hi), Hs, Hon, Hota, Hpulse, Hssid.
  unfold Info.get in *.
  repeat split; intros Hnone; rewrite Hnone in *; cbn in *;
    first [reflexivity | congruence].
Qed.

Lemma C8_witness :
  exists i,
    Info.from_dict "100090ab1a" {[ "pulseWidth" := VInt 1500 ]} = Ok i /\
    Info.signal_strength_percentage i = VInt 0 /\
    Info.pulse_width i = VInt 1500.
Proof.
  destruct (C8_from_dict_typed "100090ab1a" {[ "pulseWidth" := VInt 1500 ]})
    as (i & p & Hi & Hp & Hr & Hpw & _).
  - left. vm_compute. reflexivity.
  - exists i. split; [exact Hi|]. split; [|exact Hpw].
    vm_compute in Hi. injection Hi as <-. reflexivity.
Defined.

(** C8, as stated, fails: a negative pulseWidth is handed through to the
    snapshot, and a signalStrength that is no number makes from_dict
    raise. *)
Lemma C8_counterexample :
  (exists i,
     Info.from_dict "100090ab1a" {[ "pulseWidth" := VInt (-5) ]} = Ok i /\
     Info.pulse_width i = VInt (-5)) /\
  Info.from_dict "100090ab1a" {[ "signalStrength" := VStr "weak" ]}
  = Raise (PyError "TypeError").
Proof.
  split.
  - eexists. split; vm_compute; reflexivity.
  - vm_compute. reflexivity.
Qed.

(** ** The protocol client, [SonoffDIY._request] *)

Section Client.

Context `{Runtime} (net : http.network).

(** Whatever the peer answers, [_request] makes exactly one call and
    leaves the object as it was. *)
Lemma _request_world uri data w :
  snd (_request net uri data w) = logged w (request_of (self w) uri data).
Proof.
  run_request.
  destruct (net _ _) as [| | cls | r]; cbn; try reflexivity.
  destruct (http.raise_for_status r); cbn; try reflexivity.
  destruct (str_in _ _); cbn; [|destruct (http.text r); reflexivity].
  destruct (http.json r) as [v|]; cbn; try reflexivity.
  destruct (py_contains "error" v) as [[]|]; cbn; try reflexivity.
  destruct (py_getitem v "error") as [c|]; cbn; try reflexivity.
  destruct (py_ne_0 c); cbn.
  - destruct (ERROR_CODES_get _ _); reflexivity.
  - destruct (py_contains "data" v) as [[]|]; cbn; try reflexivity.
    destruct (py_getitem v "data") as [p|]; cbn; try reflexivity.
    destruct p; cbn; try reflexivity.
    destruct (json_loads s); reflexivity.
Qed.

Lemma _request_eta uri data w :
  _request net uri data w =
    (fst (_request net uri data w), logged w (request_of (self w) uri data)).
Proof. rewrite <- _request_world. apply surjective_pairing. Qed.

(** The answer to a response that passes the checks on status, content
    type and error code. *)
Lemma _request_envelope uri data w r env :
  net (requests w) (request_of (self w) uri data) = http.Responded r ->
  http.status r < 400 ->
  str_in "application/json" (default EmptyString (http.content_type r)) = true ->
  http.json r = Some (VDict env) ->
  fst (_request net uri data w) =
    match env !! "error" with
    | None =>
        Raise (SonoffDIYError "Unexpected response from Sonoff DIY device"
                 (Some (VDict env)))
    | Some code =>
        if py_ne_0 code
        then
          match ERROR_CODES_get code "Unknown error occurred" with
          | Ok error => Raise (SonoffDIYError error (Some (VDict env)))
          | Raise e => Raise e
          end
        else
          match env !! "data" with
          | None => Ok VNone
          | Some (VStr s) =>
              match json_loads s with
              | Some v => Ok v
              | None => Raise (PyError "JSONDecodeError")
              end
          | Some payload => Ok payload
          end
    end.
Proof.
  intros Hnet Hstatus Hctype Hjson. run_request.
  rewrite Hnet. unfold http.raise_for_status.
  destruct (Z.leb_spec 400 (http.status r)); [lia|]. step.
  rewrite Hctype, Hjson. step.
  destruct (env !! "error") as [code|] eqn:Herr.
  - rewrite bool_decide_eq_true_2 by (eexists; reflexivity). step.
    destruct (py_ne_0 code); step.
    + destruct (ERROR_CODES_get _ _); reflexivity.
    + destruct (env !! "data") as [payload|] eqn:Hdata.
      * rewrite bool_decide_eq_true_2 by (eexists; reflexivity). step.
        destruct payload; step; try reflexivity.
        destruct (json_loads s); reflexivity.
      * rewrite bool_decide_eq_false_2; [reflexivity|].
        intros [? [=]].
  - rewrite bool_decide_eq_false_2; [reflexivity|].
    intros [? [=]].
Qed.

(** C5: for a response with error = 0, a data field that is a string is
    decoded once more and the decoded value is returned; any other data is
    returned as it is; and without a data field the answer is None. *)
Theorem C5_data_field uri data w r env
    (Hnet : net (requests w) (request_of (self w) uri data) = http.Responded r)
    (Hstatus : http.status r < 400)
    (Hctype : str_in "application/json"
                (default EmptyString (http.content_type r)) = true)
    (Hjson : http.json r = Some (VDict env))
    (Herror : env !! "error" = Some (VInt 0)) :
  (forall s v, env !! "data" = Some (VStr s) -> json_loads s = Some v ->
     fst (_request net uri data w) = Ok v) /\
  (forall payload, env !! "data" = Some payload ->
     (forall s, payload <> VStr s) ->
     fst (_request net uri data w) = Ok payload) /\
  (env !! "data" = None -> fst (_request net uri data w) = Ok VNone).
Proof.
  rewrite (_request_envelope uri data w r env Hnet Hstatus Hctype Hjson).
  rewrite Herror. cbn.
  split; [|split].
  - intros s v -> ->. reflexivity.
  - intros payload -> Hns. destruct payload; try reflexivity.
    exfalso. eapply Hns. reflexivity.
  - intros ->. reflexivity.
Qed.

(** C7: for a response with an integer error code other than 0,
    [_request] raises SonoffDIYError with the message that ERROR_CODES
    holds for the code, or the unknown-error message when it holds none;
    the lookup itself always returns. *)
Theorem C7_error_code uri data w r env code
    (Hnet : net (requests w) (request_of (self w) uri data) = http.Responded r)
    (Hstatus : http.status r < 400)
    (Hctype : str_in "application/json"
                (default EmptyString (http.content_type r)) = true)
    (Hjson : http.json r = Some (VDict env))
    (Herror : env !! "error" = Some (VInt code))
    (Hcode : code <> 0) :
  exists msg,
    ERROR_CODES_get (VInt code) "Unknown error occurred" = Ok msg /\
    fst (_request net uri data w) =
      Raise (SonoffDIYError msg (Some (VDict env))) /\
    (code = 400 -> msg = "Request body is not valid JSON") /\
    (code = 401 -> msg = "Unauthorized request") /\
    (code = 403 -> msg = "OTA function is locked") /\
    (code = 404 -> msg = "Device does not support requested Device ID") /\
    (code = 408 -> msg = "Timeout while downloading firmware") /\
    (code = 413 -> msg = "OTA firmware exceeds device allowed size limit") /\
    (code = 422 -> msg = "Invalid request parameters") /\
    (code = 424 -> msg = "Firmware download failed") /\
    (code = 471 -> msg = "Firmware integrity check failed") /\
    (code = 500 ->
       msg = "Device ID or API key is not authorized by vendor's OTA service") /\
    (code = 503 -> msg = "Could not connect to vendor's OTA unlock service") /\
    (code ∉ [400; 401; 403; 404; 408; 413; 422; 424; 471; 500; 503] ->
       msg = "Unknown error occurred").
Proof.
  eexists. split; [reflexivity|]. split.
  - rewrite (_request_envelope uri data w r env Hnet Hstatus Hctype Hjson).
    rewrite Herror. cbn [py_ne_0].
    destruct (Z.eqb_spec code 0); [contradiction|]. reflexivity.
  - repeat split; try (intros ->; vm_compute; reflexivity).
    intros Hnotin. unfold ERROR_CODES.
    rewrite not_elem_of_list_to_map_1; [reflexivity | exact Hnotin].
Qed.

End Client.

(** ** The facade *)

Section Facade.

Context `{Runtime} (net : http.network).

Lemma update_info_unfold w :
  update_info net w =
    match fst (_request net "info" None w) with
    | Raise e =>
        (Raise e,
         if is_SonoffDIYError e then forget (after_info w) else after_info w)
    | Ok data =>
        match fst (_request net "signal_strength" None (after_info w)) with
        | Raise e =>
            (Raise e,
             if is_SonoffDIYError e then forget (after_signal w)
             else after_signal w)
        | Ok signal_strength => finish data signal_strength (after_signal w)
        end
    end.
Proof.
  unfold update_info, try_except, after_signal, after_info, forget.
  unfold bind.
  pose proof (_request_world net "info" None w) as Hw1.
  destruct (_request net "info" None w) as [[data|e] w1];
    cbn [fst snd] in *; subst w1.
  2:{ destruct (is_SonoffDIYError e); reflexivity. }
  pose proof (_request_world net "signal_strength" None
                (logged w (request_of (self w) "info" None))) as Hw2.
  destruct (_request net "signal_strength" None _) as [[ss|e] w2];
    cbn [fst snd] in *; subst w2.
  2:{ destruct (is_SonoffDIYError e); reflexivity. }
  reflexivity.
Qed.

(** The last stage makes no call; it raises the no-data error exactly for
    a missing info answer, no other error of the library, and a snapshot
    it returns is the one it stored. *)
Lemma finish_spec data ss w2 :
  requests (snd (finish data ss w2)) = requests w2 /\
  (data = VNone ->
     finish data ss w2 =
       (Raise (SonoffDIYError
                 "Did not receive data from Sonoff DIY device" None),
        forget w2)) /\
  (forall e, fst (finish data ss w2) = Raise e ->
     data <> VNone -> is_SonoffDIYError e = false) /\
  (forall i, fst (finish data ss w2) = Ok i ->
     info (self (snd (finish data ss w2))) = Some i).
Proof.
  assert (Hfrom : forall d' : gmap string value,
    let r := (self <- get_self;
              i <- lift (Info.from_dict (device_id self) d');
              set_info (Some i);; ret i)%py w2 in
    requests (snd r) = requests w2 /\
    (forall e, fst r = Raise e -> is_SonoffDIYError e = false) /\
    (forall i, fst r = Ok i -> info (self (snd r)) = Some i)).
  { intros d'. run_facade.
    destruct (Info.from_dict _ d') as [a|e] eqn:Hfd; run_facade.
    - repeat split; [discriminate | intros i [= <-]; reflexivity].
    - apply from_dict_raises in Hfd as ->.
      repeat split; [intros e [= <-]; reflexivity | discriminate]. }
  assert (Hattr :
    let r : result Info.t * world := (Raise (PyError "AttributeError"), w2) in
    requests (snd r) = requests w2 /\
    (forall e, fst r = Raise e -> is_SonoffDIYError e = false) /\
    (forall i, fst r = Ok i -> info (self (snd r)) = Some i)).
  { repeat split; [intros e [= <-]; reflexivity | discriminate]. }
  assert (Htype :
    let r : result Info.t * world := (Raise (PyError "TypeError"), w2) in
    requests (snd r) = requests w2 /\
    (forall e, fst r = Raise e -> is_SonoffDIYError e = false) /\
    (forall i, fst r = Ok i -> info (self (snd r)) = Some i)).
  { repeat split; [intros e [= <-]; reflexivity | discriminate]. }
  assert (Hgoal : forall r : result Info.t * world,
    data <> VNone ->
    requests (snd r) = requests w2 /\
    (forall e, fst r = Raise e -> is_SonoffDIYError e = false) /\
    (forall i, fst r = Ok i -> info (self (snd r)) = Some i) ->
    requests (snd r) = requests w2 /\
    (data = VNone -> r = (Raise (SonoffDIYError
                    "Did not receive data from Sonoff DIY device" None),
           forget w2)) /\
    (forall e, fst r = Raise e -> data <> VNone -> is_SonoffDIYError e = false) /\
    (forall i, fst r = Ok i -> info (self (snd r)) = Some i)).
  { intros r Hd (Hr & He & Hi). repeat split; auto. contradiction. }
  destruct data as [|b|n|f|s|l|d].
  { repeat split; try reflexivity; try discriminate. congruence. }
  all: apply Hgoal; [discriminate|].
  all: destruct ss as [|b'|n'|f'|s'|l'|d0]; try exact Hattr; try apply Hfrom.
  all: unfold finish, update; unfold bind at 1;
    destruct (dict_update_seq d _) as [d'|]; [apply Hfrom | exact Htype].
Qed.

(** Any SonoffDIYError that update_info raises leaves the object without
    a snapshot. *)
Lemma update_info_error_clears_info w e :
  fst (update_info net w) = Raise e ->
  is_SonoffDIYError e = true ->
  info (self (snd (update_info net w))) = None.
Proof.
  rewrite update_info_unfold.
  destruct (fst (_request net "info" None w)) as [data|e1].
  2:{ intros [= ->] ->. reflexivity. }
  destruct (fst (_request net "signal_strength" None (after_info w)))
    as [ss|e2].
  2:{ intros [= ->] ->. reflexivity. }
  destruct (finish_spec data ss (after_signal w)) as (_ & Hnone & Herr & _).
  intros Hr He.
  destruct data; try (rewrite (Herr e Hr) in He by discriminate; discriminate).
  rewrite Hnone by reflexivity. reflexivity.
Qed.

(** Whatever one of its two calls raises, update_info raises. *)
Lemma update_info_propagates w e :
  fst (_request net "info" None w) = Raise e \/
  (exists data,
     fst (_request net "info" None w) = Ok data /\
     fst (_request net "signal_strength" None
            (snd (_request net "info" None w))) = Raise e) ->
  fst (update_info net w) = Raise e.
Proof.
  rewrite update_info_unfold.
  intros [H1 | (data & H1 & H2)].
  - rewrite H1. reflexivity.
  - rewrite _request_world in H2. fold (after_info w) in H2.
    rewrite H1, H2. reflexivity.
Qed.

(** C6 (as the code has it): a response with a status of 400 or above
    raises a connection error; below 400, a content type without
    application/json raises, once the body text has been read, the
    unexpected-response error with the content type and that text, and a
    JSON object without an error field raises it with the object.  No
    value is returned in any of the three cases, and when the response
    answers the info call or the signal_strength call of update_info,
    update_info raises the same error, returns no snapshot and holds none
    afterwards. *)
Theorem C6_rejected_response uri data w r
    (Hnet : net (requests w) (request_of (self w) uri data) = http.Responded r) :
  (400 <= http.status r ->
     fst (_request net uri data w) =
       Raise (SonoffDIYConnectionError
                "Error occurred while communicating with Sonoff DIY device")) /\
  (http.status r < 400 ->
   str_in "application/json" (default EmptyString (http.content_type r)) = false ->
   forall text, http.text r = http.Text text ->
     fst (_request net uri data w) =
       Raise (SonoffDIYError "Unexpected response from Sonoff DIY device"
                (Some (VDict
                   (<["Content-Type" :=
                        VStr (default EmptyString (http.content_type r))]>
                    (<["response" := VStr text]> ∅)))))) /\
  (http.status r < 400 ->
   str_in "application/json" (default EmptyString (http.content_type r)) = true ->
   forall env, http.json r = Some (VDict env) -> env !! "error" = None ->
     fst (_request net uri data w) =
       Raise (SonoffDIYError "Unexpected response from Sonoff DIY device"
                (Some (VDict env)))) /\
  (forall e, fst (_request net uri data w) = Raise e ->
     is_SonoffDIYError e = true ->
     (uri = "info" -> data = None ->
        fst (update_info net w) = Raise e /\
        info (self (snd (update_info net w))) = None) /\
     (uri = "signal_strength" -> data = None ->
      forall w0 v,
        fst (_request net "info" None w0) = Ok v ->
        w = snd (_request net "info" None w0) ->
        fst (update_info net w0) = Raise e /\
        info (self (snd (update_info net w0))) = None)).
Proof.
  split; [|split; [|split]].
  - intros Hstatus. run_request. rewrite Hnet. unfold http.raise_for_status.
    destruct (Z.leb_spec 400 (http.status r)); [reflexivity | lia].
  - intros Hstatus Hctype text Htext. run_request. rewrite Hnet.
    unfold http.raise_for_status.
    destruct (Z.leb_spec 400 (http.status r)); [lia|]. step.
    rewrite Hctype, Htext. reflexivity.
  - intros Hstatus Hctype env Hjson Herror.
    rewrite (_request_envelope net uri data w r env Hnet Hstatus Hctype Hjson).
    rewrite Herror. reflexivity.
  - intros e He Hlib. split.
    + intros -> ->.
      assert (Hup : fst (update_info net w) = Raise e).
      { apply update_info_propagates. left. exact He. }
      split; [exact Hup|].
      exact (update_info_error_clears_info w e Hup Hlib).
    + intros -> -> w0 v Hinfo ->.
      assert (Hup : fst (update_info net w0) = Raise e).
      { apply update_info_propagates. right. exists v. split; assumption. }
      split; [exact Hup|].
      exact (update_info_error_clears_info w0 e Hup Hlib).
Qed.

(** C2 (as the code has it): when the info call, or after it the
    signal_strength call, raises a SonoffDIYError (a connection error
    included), update_info raises that error and the object holds no
    snapshot any more. *)
Theorem C2_failed_call_clears_info w e
    (Hfail :
       fst (_request net "info" None w) = Raise e \/
       exists data,
         fst (_request net "info" None w) = Ok data /\
         fst (_request net "signal_strength" None
                (snd (_request net "info" None w))) = Raise e)
    (He : is_SonoffDIYError e = true) :
  fst (update_info net w) = Raise e /\
  info (self (snd (update_info net w))) = None.
Proof.
  rewrite update_info_unfold.
  destruct Hfail as [H1 | (data & H1 & H2)].
  - rewrite H1, He. split; reflexivity.
  - rewrite _request_world in H2. fold (after_info w) in H2.
    rewrite H1, H2, He. split; reflexivity.
Qed.

(** The calls update_info makes: info, and after an answer to it
    signal_strength. *)
Lemma update_info_requests w :
  requests (snd (update_info net w)) =
    (requests w ++ [request_of (self w) "info" None])%list \/
  requests (snd (update_info net w)) =
    (requests w ++ [request_of (self w) "info" None;
                    request_of (self w) "signal_strength" None])%list.
Proof.
  assert (Happ : requests (after_signal w) =
                 (requests w ++ [request_of (self w) "info" None;
                                 request_of (self w) "signal_strength" None])%list).
  { cbn. rewrite <- app_assoc. reflexivity. }
  rewrite update_info_unfold.
  destruct (fst (_request net "info" None w)) as [data|e1].
  2:{ left. destruct (is_SonoffDIYError e1); reflexivity. }
  right.
  destruct (fst (_request net "signal_strength" None (after_info w)))
    as [ss|e2].
  2:{ destruct (is_SonoffDIYError e2); exact Happ. }
  destruct (finish_spec data ss (after_signal w)) as (-> & _).
  exact Happ.
Qed.

(** C9: when the info call is answered with error 0 and no data, the
    signal_strength request is made all the same; if that call returns,
    update_info then raises the no-data error and the object holds no
    snapshot. *)
Theorem C9_no_data_checked_after_both_calls w r env
    (Hnet : net (requests w) (request_of (self w) "info" None) = http.Responded r)
    (Hstatus : http.status r < 400)
    (Hctype : str_in "application/json"
                (default EmptyString (http.content_type r)) = true)
    (Hjson : http.json r = Some (VDict env))
    (Herror : env !! "error" = Some (VInt 0))
    (Hdata : env !! "data" = None) :
  fst (_request net "info" None w) = Ok VNone /\
  requests (snd (update_info net w)) =
    (requests w ++ [request_of (self w) "info" None;
                    request_of (self w) "signal_strength" None])%list /\
  (forall v,
     fst (_request net "signal_strength" None
            (snd (_request net "info" None w))) = Ok v ->
     fst (update_info net w) =
       Raise (SonoffDIYError
                "Did not receive data from Sonoff DIY device" None) /\
     info (self (snd (update_info net w))) = None).
Proof.
  assert (H1 : fst (_request net "info" None w) = Ok VNone).
  { rewrite (_request_envelope net "info" None w r env Hnet Hstatus Hctype Hjson).
    rewrite Herror, Hdata. reflexivity. }
  assert (Happ : requests (after_signal w) =
                 (requests w ++ [request_of (self w) "info" None;
                                 request_of (self w) "signal_strength" None])%list).
  { cbn. rewrite <- app_assoc. reflexivity. }
  split; [exact H1|].
  rewrite _request_world. fold (after_info w).
  rewrite update_info_unfold, H1.
  destruct (fst (_request net "signal_strength" None (after_info w)))
    as [ss|e2].
  - destruct (finish_spec VNone ss (after_signal w)) as (Hreq & Hnone & _).
    rewrite Hreq. split; [exact Happ|].
    intros v _. rewrite Hnone by reflexivity. split; reflexivity.
  - split; [destruct (is_SonoffDIYError e2); exact Happ|].
    intros v [=].
Qed.

(** A snapshot that update_info returns is the one the object holds. *)
Lemma update_info_returns w i :
  fst (update_info net w) = Ok i ->
  info (self (snd (update_info net w))) = Some i.
Proof.
  rewrite update_info_unfold.
  destruct (fst (_request net "info" None w)) as [data|e1]; [|discriminate].
  destruct (fst (_request net "signal_strength" None (after_info w)))
    as [ss|e2]; [|discriminate].
  destruct (finish_spec data ss (after_signal w)) as (_ & _ & _ & Hi).
  apply Hi.
Qed.

(** A method that makes one request and returns nothing raises what the
    request raises and logs that request. *)
Lemma request_then_return uri data w :
  (_request net uri data;; ret tt)%py w =
    (match fst (_request net uri data w) with
     | Ok _ => Ok tt
     | Raise e => Raise e
     end,
     logged w (request_of (self w) uri data)).
Proof.
  unfold bind. rewrite (_request_eta net uri data w).
  destruct (fst (_request net uri data w)); reflexivity.
Qed.

(** C10: when the update_info of pulse_width raises, pulse_width raises
    the same error and has made no call but those of update_info, to info
    and signal_strength; when it returns a snapshot, that snapshot is the
    one the object holds, and the next call is to pulse, with pulse on
    exactly when the snapshot has pulse set, and the requested width. *)
Theorem C10_pulse_width w width :
  (forall e, fst (update_info net w) = Raise e ->
     pulse_width net width w = (Raise e, snd (update_info net w)) /\
     exists l,
       requests (snd (pulse_width net width w)) = (requests w ++ l)%list /\
       Forall (fun rq => http.rq_uri rq = "info" \/
                         http.rq_uri rq = "signal_strength") l) /\
  (forall i, fst (update_info net w) = Ok i ->
     let w' := snd (update_info net w) in
     let payload : gmap string value :=
       <["pulse" := VStr (if Info.pulse i then "on" else "off")]>
         (<["pulse_width" := VInt width]> ∅) in
     info (self w') = Some i /\
     requests (snd (pulse_width net width w)) =
       (requests w' ++ [request_of (self w') "pulse" (Some payload)])%list /\
     fst (pulse_width net width w) =
       match fst (_request net "pulse" (Some payload) w') with
       | Ok _ => Ok tt
       | Raise e => Raise e
       end).
Proof.
  split.
  - intros e He.
    assert (Hrun : pulse_width net width w = (Raise e, snd (update_info net w))).
    { unfold pulse_width. unfold bind at 1.
      destruct (update_info net w) as [[i|e'] w']; cbn in He |- *; congruence. }
    split; [exact Hrun|].
    rewrite Hrun. cbn [snd].
    destruct (update_info_requests w) as [-> | ->]; eexists;
      (split; [reflexivity|]);
      repeat first [ apply List.Forall_nil
                   | apply List.Forall_cons; [cbn; auto|] ].
  - intros i Hi w' payload.
    pose proof (update_info_returns w i Hi) as Hinfo. fold w' in Hinfo.
    split; [exact Hinfo|].
    assert (Hrun : pulse_width net width w =
              (_request net "pulse" (Some payload);; ret tt)%py w').
    { unfold pulse_width. unfold bind at 1. subst w'.
      destruct (update_info net w) as [[i'|e'] w']; cbn in Hi, Hinfo |- *;
        [|discriminate].
      unfold bind at 1, get_self. rewrite Hinfo.
      injection Hi as ->. reflexivity. }
    rewrite Hrun, request_then_return. split; reflexivity.
Qed.

(** C1 (as the code has it): a state other than on, off, restore and stay
    is refused with the invalid-startup error, and the world is as before:
    no call was made. *)
Theorem C1_invalid_state_refused w state
    (Hstate : state ∉ ["on"; "off"; "restore"; "stay"]) :
  power_on_state net state w =
    (Raise (SonoffDIYError
              "Invalid startup value, accepted: on, off, restore" None), w).
Proof.
  unfold power_on_state.
  replace (existsb (String.eqb state)
             [STATE_ON; STATE_OFF; STATE_RESTORE; STATE_STAY]) with false;
    [reflexivity|].
  symmetry. apply not_true_is_false. intros Hex.
  apply existsb_exists in Hex as (x & Hin & Heq).
  apply String.eqb_eq in Heq as <-.
  apply Hstate, list_elem_of_In. exact Hin.
Qed.

(** C4: a snapshot never holds stay as its power-on state, a startup of
    stay is read as restore, and power_on_state sends stay for restore,
    and on and off as they are. *)
Theorem C4_startup_round_trip w device_id data i
    (Hi : Info.from_dict device_id data = Ok i) :
  Info.power_on_state i <> VStr "stay" /\
  (data !! "startup" = Some (VStr "stay") ->
     Info.power_on_state i = VStr "restore") /\
  snd (power_on_state net "restore" w) =
    logged w (request_of (self w) "startup"
                (Some {[ "startup" := VStr "stay" ]})) /\
  snd (power_on_state net "on" w) =
    logged w (request_of (self w) "startup"
                (Some {[ "startup" := VStr "on" ]})) /\
  snd (power_on_state net "off" w) =
    logged w (request_of (self w) "startup"
                (Some {[ "startup" := VStr "off" ]})).
Proof.
  rewrite (from_dict_power_on_state _ _ _ Hi).
  split; [|split].
  - destruct (py_eq_str _ STATE_STAY) eqn:Heq; [discriminate|].
    intros Hstay. rewrite Hstay in Heq. discriminate.
  - intros Hstay. unfold Info.get. rewrite Hstay. reflexivity.
  - repeat split.
    all: unfold power_on_state;
      cbn [existsb String.eqb Ascii.eqb Bool.eqb orb negb
           STATE_ON STATE_OFF STATE_RESTORE STATE_STAY];
      rewrite request_then_return; reflexivity.
Qed.

End Facade.

(** ** The claims at the devices of the test-suite *)

Section Witnesses.

Import decoder fixture.
Existing Instance decoder.runtime.

Lemma C1_witness :
  power_on_state (routes []) "frenck" fresh =
    (Raise (SonoffDIYError
              "Invalid startup value, accepted: on, off, restore" None),
     fresh).
Proof.
  apply (C1_invalid_state_refused (routes []) fresh "frenck").
  intros Hin. repeat (apply elem_of_cons in Hin as [Heq | Hin]; [discriminate|]).
  inversion Hin.
Defined.

(** C1, as stated, fails at stay: it is none of on, off and restore, and
    power_on_state accepts it and sends it to the device. *)
Lemma C1_counterexample :
  ("stay" ∉ ["on"; "off"; "restore"]) /\
  power_on_state (routes [("startup", json_response 200 ok_text)]) "stay" fresh =
    (Ok tt,
     {| self := diy;
        requests := [request_of diy "startup"
                       (Some {[ "startup" := VStr "stay" ]})] |}).
Proof.
  split.
  - intros Hin.
    repeat (apply elem_of_cons in Hin as [Heq | Hin]; [discriminate|]).
    inversion Hin.
  - vm_compute. reflexivity.
Qed.

(** The second call fails (status 500) after an earlier fetch had
    succeeded: the snapshot of that fetch is gone. *)
Lemma C2_witness :
  info (self primed) = Some earlier /\
  fst (update_info
         (routes [("info", json_response 200 info_text);
                  ("signal_strength", json_response 500 "Invalid response")])
         primed)
  = Raise (SonoffDIYConnectionError
             "Error occurred while communicating with Sonoff DIY device") /\
  info (self (snd (update_info
         (routes [("info", json_response 200 info_text);
                  ("signal_strength", json_response 500 "Invalid response")])
         primed))) = None.
Proof.
  split; [reflexivity|].
  apply (C2_failed_call_clears_info
           (routes [("info", json_response 200 info_text);
                    ("signal_strength", json_response 500 "Invalid response")])
           primed).
  - right. eexists. split; vm_compute; reflexivity.
  - reflexivity.
Defined.

(** C2, as stated, fails when the call fails with another exception: an
    info answer whose data is a string that is no JSON makes json.loads
    raise inside the call, update_info does not catch it, and the object
    keeps the snapshot of the earlier fetch. *)
Lemma C2_counterexample :
  let net :=
    routes [("info",
             json_response 200 (dq "{'seq': 6, 'error': 0, 'data': 'oops'}"));
            ("signal_strength", json_response 200 signal_text)] in
  fst (_request net "info" None primed) = Raise (PyError "JSONDecodeError") /\
  fst (update_info net primed) = Raise (PyError "JSONDecodeError") /\
  info (self (snd (update_info net primed))) = Some earlier.
Proof. repeat split; vm_compute; reflexivity. Qed.

Lemma C4_witness :
  exists i,
    Info.from_dict "100090ab1a" {[ "startup" := VStr "stay" ]} = Ok i /\
    Info.power_on_state i = VStr "restore" /\
    snd (power_on_state (routes [("startup", json_response 200 ok_text)])
           "restore" fresh) =
      logged fresh (request_of diy "startup"
                      (Some {[ "startup" := VStr "stay" ]})).
Proof.
  assert (Hi : Info.from_dict "100090ab1a" {[ "startup" := VStr "stay" ]} =
               Ok (Info.mk "100090ab1a" false (VBool false) (VStr "restore")
                     (VInt 0) false (VInt 0) (VInt (-100)) (VStr EmptyString))).
  { vm_compute. reflexivity. }
  eexists. split; [exact Hi|].
  destruct (C4_startup_round_trip
              (routes [("startup", json_response 200 ok_text)]) fresh
              "100090ab1a" {[ "startup" := VStr "stay" ]} _ Hi)
    as (_ & Hread & Hwrite & _).
  split; [apply Hread; vm_compute; reflexivity | exact Hwrite].
Defined.

(** [test_encoded_json_request] *)
Lemma C5_witness :
  fst (_request
         (routes [("/", json_response 200
                     (dq "{'seq': 26, 'error': 0, 'data': '{\'test\': \'ok\'}'}"))])
         "/" None fresh)
  = Ok (VDict {[ "test" := VStr "ok" ]}).
Proof.
  destruct (C5_data_field
              (routes [("/", json_response 200
                          (dq "{'seq': 26, 'error': 0, 'data': '{\'test\': \'ok\'}'}"))])
              "/" None fresh
              (json_response 200
                 (dq "{'seq': 26, 'error': 0, 'data': '{\'test\': \'ok\'}'}"))
              (list_to_map [("seq", VInt 26); ("error", VInt 0);
                            ("data", VStr (dq "{'test': 'ok'}"))]))
    as (Hstr & _);
    [ reflexivity | vm_compute; reflexivity | vm_compute; reflexivity
    | vm_compute; reflexivity | vm_compute; reflexivity | ].
  apply (Hstr (dq "{'test': 'ok'}")); vm_compute; reflexivity.
Defined.

(** [test_invalid_content_type] *)
Lemma C6_witness :
  fst (_request
         (routes [("/", plain_response 200 (Some "other/content")
                          (dq "{'seq': 26, 'error': 0, 'data': {'test': 'ok'}}"))])
         "/" None fresh)
  = Raise (SonoffDIYError "Unexpected response from Sonoff DIY device"
             (Some (VDict
                (<["Content-Type" := VStr "other/content"]>
                 (<["response" :=
                      VStr (dq "{'seq': 26, 'error': 0, 'data': {'test': 'ok'}}")]>
                  ∅))))).
Proof.
  destruct (C6_rejected_response
              (routes [("/", plain_response 200 (Some "other/content")
                            (dq "{'seq': 26, 'error': 0, 'data': {'test': 'ok'}}"))])
              "/" None fresh
              (plain_response 200 (Some "other/content")
                 (dq "{'seq': 26, 'error': 0, 'data': {'test': 'ok'}}")))
    as (_ & Hctype & _); [reflexivity|].
  apply Hctype; [vm_compute; reflexivity | vm_compute; reflexivity | reflexivity].
Defined.

(** C6, as stated, fails at a status that is not 2xx and below 400: the
    client takes the response for a success and returns its data.  It
    fails as well for a content type without application/json whose body
    cannot be read as text: what response.text() raises comes out, and
    that is no error of the library. *)
Lemma C6_counterexample :
  let r := json_response 300
             (dq "{'seq': 26, 'error': 0, 'data': {'test': 'ok'}}") in
  let r' := {| http.status := 200;
               http.content_type := Some "text/plain; charset=utf-8";
               http.text := http.TextError "UnicodeDecodeError";
               http.json := None |} in
  ((http.status r <? 200) || (299 <? http.status r) = true /\
   fst (_request (routes [("/", r)]) "/" None fresh)
   = Ok (VDict {[ "test" := VStr "ok" ]})) /\
  (str_in "application/json" "text/plain; charset=utf-8" = false /\
   fst (_request (routes [("/", r')]) "/" None fresh)
   = Raise (PyError "UnicodeDecodeError") /\
   is_SonoffDIYError (PyError "UnicodeDecodeError") = false).
Proof. repeat split; vm_compute; reflexivity. Qed.

(** [test_error_response] *)
Lemma C7_witness :
  fst (_request (routes [("/", json_response 200 (dq "{'seq': 26, 'error': 422}"))])
         "/" None fresh)
  = Raise (SonoffDIYError "Invalid request parameters"
             (Some (VDict (list_to_map [("seq", VInt 26); ("error", VInt 422)])))).
Proof.
  destruct (C7_error_code
              (routes [("/", json_response 200 (dq "{'seq': 26, 'error': 422}"))])
              "/" None fresh
              (json_response 200 (dq "{'seq': 26, 'error': 422}"))
              (list_to_map [("seq", VInt 26); ("error", VInt 422)]) 422)
    as (msg & _ & Hraise & _ & _ & _ & _ & _ & _ & Hmsg & _);
    [ reflexivity | vm_compute; reflexivity | vm_compute; reflexivity
    | vm_compute; reflexivity | vm_compute; reflexivity | discriminate | ].
  rewrite Hraise, Hmsg; reflexivity.
Defined.

(** [test_no_data] *)
Lemma C9_witness :
  let net :=
    routes [("info", json_response 200 (dq "{'seq': 6,'error': 0}"));
            ("signal_strength",
             json_response 200
               (dq "{'seq': 26, 'error': 0, 'data': {'signalStrength': -100}}"))] in
  requests (snd (update_info net primed)) =
    [request_of diy "info" None; request_of diy "signal_strength" None] /\
  fst (update_info net primed) =
    Raise (SonoffDIYError "Did not receive data from Sonoff DIY device" None) /\
  info (self (snd (update_info net primed))) = None.
Proof.
  intros net.
  destruct (C9_no_data_checked_after_both_calls net primed
              (json_response 200 (dq "{'seq': 6,'error': 0}"))
              (list_to_map [("seq", VInt 6); ("error", VInt 0)]))
    as (_ & Hreq & Hraise);
    [ reflexivity | vm_compute; reflexivity | vm_compute; reflexivity
    | vm_compute; reflexivity | vm_compute; reflexivity
    | vm_compute; reflexivity | ].
  split; [exact Hreq|].
  eapply Hraise. vm_compute. reflexivity.
Defined.

(** [test_pulse_width] *)
Lemma C10_witness :
  let net :=
    routes [("info",
             json_response 200
               (dq "{'seq': 26, 'error': 0, 'data': {'pulse': 'on'}}"));
            ("signal_strength", json_response 200 signal_text);
            ("pulse", json_response 200 ok_text)] in
  exists i,
    fst (update_info net fresh) = Ok i /\
    Info.pulse i = true /\
    requests (snd (pulse_width net 1000 fresh)) =
      [request_of diy "info" None;
       request_of diy "signal_strength" None;
       request_of diy "pulse"
         (Some (<["pulse" := VStr "on"]> (<["pulse_width" := VInt 1000]> ∅)))].
Proof.
  intros net. eexists. split; [vm_compute; reflexivity|].
  split; [reflexivity|].
  destruct (C10_pulse_width net fresh 1000) as (_ & Hok).
  destruct (Hok _ eq_refl) as (_ & Hreq & _).
  rewrite Hreq. vm_compute. reflexivity.
Defined.

End Witnesses.

(** * Further properties *)

(** ** More on [Info.from_dict] *)

(** X1: from_dict fails exactly on a signalStrength that is present and
    is no number: it then raises TypeError, and it returns a snapshot for
    every other mapping. *)
Theorem X1_from_dict_fails_on_non_number
    (device_id : string) (data : gmap string value) :
  match data !! "signalStrength" with
  | Some VNone | Some (VStr _) | Some (VList _) | Some (VDict _) =>
      Info.from_dict device_id data = Raise (PyError "TypeError")
  | Some (VBool _) | Some (VInt _) | Some (VFloat _) | None =>
      exists i, Info.from_dict device_id data = Ok i
  end.
Proof.
  unfold Info.from_dict, Info.get.
  destruct (data !! "signalStrength") as [[|b|n|f|s|l|d]|]; cbn; try reflexivity.
  - destruct (Z.b2z b <=? -100); cbn; [eexists; reflexivity|].
    destruct (Z.b2z b >=? -50); cbn; eexists; reflexivity.
  - destruct (n <=? -100); cbn; [eexists; reflexivity|].
    destruct (n >=? -50); cbn; eexists; reflexivity.
  - destruct (PrimFloat.leb f _); cbn; [eexists; reflexivity|].
    destruct (PrimFloat.leb _ f); cbn; eexists; reflexivity.
  - eexists. reflexivity.
Qed.

(** X2: the percentage grows with the signal strength: of two mappings
    with integer signal strengths, the one with the stronger signal has the
    larger or the same percentage. *)
Theorem X2_percentage_monotone
    (id1 id2 : string) (d1 d2 : gmap string value) (a b : Z) (i1 i2 : Info.t)
    (Ha : d1 !! "signalStrength" = Some (VInt a))
    (Hb : d2 !! "signalStrength" = Some (VInt b))
    (Hab : a <= b)
    (Hi1 : Info.from_dict id1 d1 = Ok i1)
    (Hi2 : Info.from_dict id2 d2 = Ok i2) :
  exists p1 p2,
    Info.signal_strength_percentage i1 = VInt p1 /\
    Info.signal_strength_percentage i2 = VInt p2 /\
    p1 <= p2.
Proof.
  destruct (from_dict_int id1 d1 a) as (j1 & Hj1 & _ & Hp1 & _).
  { unfold Info.get. rewrite Ha. reflexivity. }
  destruct (from_dict_int id2 d2 b) as (j2 & Hj2 & _ & Hp2 & _).
  { unfold Info.get. rewrite Hb. reflexivity. }
  rewrite Hi1 in Hj1. injection Hj1 as <-.
  rewrite Hi2 in Hj2. injection Hj2 as <-.
  eexists _, _. split; [exact Hp1|]. split; [exact Hp2|].
  destruct (Z.leb_spec a (-100)), (Z.leb_spec b (-100));
    rewrite ?Z.geb_leb;
    destruct (Z.leb_spec (-50) a), (Z.leb_spec (-50) b); lia.
Qed.

(** X3: from_dict reads seven keys and no other: a value under any other
    key changes nothing. *)
Theorem X3_from_dict_ignores_other_keys
    (device_id : string) (data : gmap string value) (key : string) (v : value)
    (Hkey : key ∉ ["signalStrength"; "startup"; "switch"; "otaUnlock";
                   "pulseWidth"; "pulse"; "ssid"]) :
  Info.from_dict device_id (<[key := v]> data) = Info.from_dict device_id data.
Proof.
  assert (Hne : forall k dflt,
            k ∈ ["signalStrength"; "startup"; "switch"; "otaUnlock";
                 "pulseWidth"; "pulse"; "ssid"] ->
            Info.get (<[key := v]> data) k dflt = Info.get data k dflt).
  { intros k dflt Hk. unfold Info.get. rewrite lookup_insert_ne; [reflexivity|].
    intros ->. contradiction. }
  unfold Info.from_dict.
  rewrite !Hne by (repeat first [ apply list_elem_of_here
                                | apply list_elem_of_further ]).
  reflexivity.
Qed.

(** X4: the snapshot does not tell the vendor's stay from restore: the
    two startup values give the same snapshot. *)
Theorem X4_stay_and_restore_read_alike
    (device_id : string) (data : gmap string value) :
  Info.from_dict device_id (<["startup" := VStr "stay"]> data) =
  Info.from_dict device_id (<["startup" := VStr "restore"]> data).
Proof.
  assert (Hne : forall (x : value) k dflt,
            k <> "startup" ->
            Info.get (<["startup" := x]> data) k dflt = Info.get data k dflt).
  { intros x k dflt Hk. unfold Info.get. rewrite lookup_insert_ne; [reflexivity|].
    intros Heq. apply Hk. symmetry. exact Heq. }
  assert (Heq : forall (x dflt : value),
            Info.get (<["startup" := x]> data) "startup" dflt = x).
  { intros x dflt. unfold Info.get. rewrite lookup_insert_eq. reflexivity. }
  unfold Info.from_dict.
  rewrite !Heq, !Hne by discriminate. reflexivity.
Qed.

(** X5: a snapshot is on exactly when the switch field is the string on,
    and has pulse set exactly when the pulse field is the string on; a
    missing field or any other value, of whatever type, reads as false. *)
Theorem X5_on_and_pulse
    (device_id : string) (data : gmap string value) (i : Info.t)
    (Hi : Info.from_dict device_id data = Ok i) :
  (Info.on i = true <-> data !! "switch" = Some (VStr "on")) /\
  (Info.pulse i = true <-> data !! "pulse" = Some (VStr "on")).
Proof.
  unfold Info.from_dict in Hi.
  destruct (_ ← py_le _ _; _) as [p|e]; cbn in Hi; [|discriminate].
  injection Hi as <-. cbn [Info.on Info.pulse]. unfold Info.get.
  split; rewrite py_eq_str_true; unfold STATE_ON.
  - destruct (data !! "switch"); cbn; split; congruence.
  - destruct (data !! "pulse"); cbn; split; congruence.
Qed.

(** ** More on [SonoffDIY._request] *)

Lemma append_cons (c : ascii) (s b : string) :
  (String c s ++ b)%string = String c (s ++ b)%string.
Proof. reflexivity. Qed.

Lemma append_nil (b : string) : (EmptyString ++ b)%string = b.
Proof. reflexivity. Qed.

(** [s in t] holds exactly when [t] has [s] inside. *)
Lemma prefix_spec (s t : string) :
  String.prefix s t = true <-> exists b, t = (s ++ b)%string.
Proof.
  revert t. induction s as [|c s IH]; intros t.
  - split; [intros _; exists t; reflexivity | intros _; destruct t; reflexivity].
  - destruct t as [|c' t]; cbn.
    { split; [discriminate | intros [b Hb]; rewrite append_cons in Hb; discriminate]. }
    destruct (Ascii.ascii_dec c c') as [<- | Hne].
    + rewrite IH. split; intros [b Hb]; exists b; rewrite append_cons in *;
        congruence.
    + split; [discriminate|].
      intros [b Hb]. rewrite append_cons in Hb. congruence.
Qed.

Lemma str_in_spec (s t : string) :
  str_in s t = true <-> exists a b, t = (a ++ s ++ b)%string.
Proof.
  induction t as [|c t IH]; cbn [str_in].
  - rewrite orb_false_r, prefix_spec. split.
    + intros [b Hb]. exists EmptyString, b. exact Hb.
    + intros ([|c a] & b & Hab);
        [exists b; exact Hab | rewrite append_cons in Hab; discriminate].
  - rewrite orb_true_iff, prefix_spec, IH. split.
    + intros [[b Hb] | (a & b & Hab)].
      * exists EmptyString, b. exact Hb.
      * exists (String c a), b. rewrite append_cons. congruence.
    + intros ([|c' a] & b & Hab).
      * left. exists b. exact Hab.
      * right. exists a, b. rewrite append_cons in Hab. congruence.
Qed.

Section MoreClient.

Context `{Runtime} (net : http.network).

(** X6: whatever the peer does, [_request] calls the session once, for
    the request it was asked for, and leaves the object as it was: it does
    not retry, and it never touches the snapshot. *)
Theorem X6_request_one_call uri data w :
  requests (snd (_request net uri data w)) =
    (requests w ++ [request_of (self w) uri data])%list /\
  self (snd (_request net uri data w)) = self w /\
  http.rq_uri (request_of (self w) uri data) = uri /\
  http.rq_deviceid (request_of (self w) uri data) = device_id (self w) /\
  http.rq_data (request_of (self w) uri data) = default ∅ data.
Proof.
  rewrite _request_world. repeat split.
Qed.

(** X7: a call that ends in a timeout or in a client error raises the
    connection error with its own message; an exception of another class
    goes through as it is. *)
Theorem X7_transport_failures uri data w :
  match net (requests w) (request_of (self w) uri data) with
  | http.TimedOut =>
      fst (_request net uri data w) =
        Raise (SonoffDIYConnectionError
                 "Timeout occurred while connecting to Sonoff DIY device")
  | http.ClientError =>
      fst (_request net uri data w) =
        Raise (SonoffDIYConnectionError
                 "Error occurred while communicating with Sonoff DIY device")
  | http.OtherError cls => fst (_request net uri data w) = Raise (PyError cls)
  | http.Responded _ => True
  end.
Proof.
  run_request. destruct (net _ _); first [reflexivity | exact I].
Qed.

(** X8: when the call ends in a timeout, a client error or a response,
    and for a response that passes the check on the status: with a content
    type that is refused its body can be read as text, with one that is
    accepted its body is a JSON object, its error field, if any, is an
    integer, and its data field, if a string, is JSON, then [_request]
    returns or raises an error of the library: no other exception comes
    out. *)
Theorem X8_library_errors_only uri data w
    (Hcall : match net (requests w) (request_of (self w) uri data) with
             | http.OtherError _ => False
             | http.Responded r =>
                 http.status r < 400 ->
                 (str_in "application/json"
                    (default EmptyString (http.content_type r)) = false ->
                  exists text, http.text r = http.Text text) /\
                 (str_in "application/json"
                    (default EmptyString (http.content_type r)) = true ->
                  exists env,
                    http.json r = Some (VDict env) /\
                    (env !! "error" = None \/
                     exists code, env !! "error" = Some (VInt code)) /\
                    (forall s, env !! "data" = Some (VStr s) ->
                       is_Some (json_loads s)))
             | _ => True
             end) :
  (exists v, fst (_request net uri data w) = Ok v) \/
  (exists e, fst (_request net uri data w) = Raise e /\
             is_SonoffDIYError e = true).
Proof.
  destruct (net (requests w) (request_of (self w) uri data))
    as [| | cls | r] eqn:Hnet; [| |contradiction|].
  - right. eexists.
    split; [run_request; rewrite Hnet; reflexivity | reflexivity].
  - right. eexists.
    split; [run_request; rewrite Hnet; reflexivity | reflexivity].
  - destruct (Z.leb_spec 400 (http.status r)) as [Hst | Hst].
    { right. eexists. split.
      - run_request. rewrite Hnet. unfold http.raise_for_status.
        destruct (Z.leb_spec 400 (http.status r)); [reflexivity | lia].
      - reflexivity. }
    destruct (Hcall Hst) as [Hrefused Haccepted].
    destruct (str_in "application/json"
                (default EmptyString (http.content_type r))) eqn:Hct.
    2:{ destruct (Hrefused eq_refl) as [text Htext].
        right. eexists. split.
        - run_request. rewrite Hnet. unfold http.raise_for_status.
          destruct (Z.leb_spec 400 (http.status r)); [lia|]. step.
          rewrite Hct, Htext. reflexivity.
        - reflexivity. }
    destruct (Haccepted eq_refl) as (env & Hjson & Herr & Hdata).
    rewrite (_request_envelope net uri data w r env Hnet Hst Hct Hjson).
    destruct Herr as [-> | [code ->]].
    { right. eexists. split; reflexivity. }
    cbn [py_ne_0 ERROR_CODES_get].
    destruct (code =? 0); cbn [negb].
    2:{ right. eexists. split; reflexivity. }
    left. destruct (env !! "data") as [[| | | |s| |]|] eqn:Hd;
      try (eexists; reflexivity).
    destruct (Hdata s eq_refl) as [v ->]. eexists. reflexivity.
Qed.

(** X9: the test of the content type is on the letters as they are: it
    passes when application/json stands anywhere in the header, parameters
    before or after it included, and the answer is then read from what
    response.json() returns; in every other case, another case of the
    letters included, the body text is read and, once it has been, the
    unexpected-response error is raised with the content type and that
    text. *)
Theorem X9_content_type uri data w r
    (Hnet : net (requests w) (request_of (self w) uri data) = http.Responded r)
    (Hstatus : http.status r < 400) :
  let content_type := default EmptyString (http.content_type r) in
  ((exists a b, content_type = (a ++ "application/json" ++ b)%string) ->
   forall env, http.json r = Some (VDict env) ->
     env !! "error" = Some (VInt 0) -> env !! "data" = None ->
     fst (_request net uri data w) = Ok VNone) /\
  (~ (exists a b, content_type = (a ++ "application/json" ++ b)%string) ->
   (forall text, http.text r = http.Text text ->
      fst (_request net uri data w) =
        Raise (SonoffDIYError "Unexpected response from Sonoff DIY device"
                 (Some (VDict
                    (<["Content-Type" := VStr content_type]>
                     (<["response" := VStr text]> ∅)))))) /\
   (forall cls, http.text r = http.TextError cls ->
      fst (_request net uri data w) = Raise (PyError cls))).
Proof.
  intros content_type. split.
  - intros Hin env Hjson Herr Hdata.
    apply str_in_spec in Hin.
    rewrite (_request_envelope net uri data w r env Hnet Hstatus Hin Hjson).
    rewrite Herr, Hdata. reflexivity.
  - intros Hout. rewrite <- str_in_spec in Hout.
    apply not_true_is_false in Hout.
    split; intros x Hx; run_request; rewrite Hnet; unfold http.raise_for_status;
      (destruct (Z.leb_spec 400 (http.status r)); [lia|]); step;
      fold content_type; rewrite Hout, Hx; reflexivity.
Qed.

(** X10: an error field that is no integer.  The comparison with 0 is
    Python's: false is equal to 0, so the response counts as a success; a
    string (the string 0 as well), None and true are not equal to 0 and
    are no keys of ERROR_CODES, so the unknown-error message is raised. *)
Theorem X10_error_field_not_an_integer uri data w r env
    (Hnet : net (requests w) (request_of (self w) uri data) = http.Responded r)
    (Hstatus : http.status r < 400)
    (Hctype : str_in "application/json"
                (default EmptyString (http.content_type r)) = true)
    (Hjson : http.json r = Some (VDict env)) :
  (env !! "error" = Some (VBool false) -> env !! "data" = None ->
     fst (_request net uri data w) = Ok VNone) /\
  ((env !! "error" = Some (VBool true) \/ env !! "error" = Some VNone \/
    exists s, env !! "error" = Some (VStr s)) ->
     fst (_request net uri data w) =
       Raise (SonoffDIYError "Unknown error occurred" (Some (VDict env)))) /\
  ((exists l, env !! "error" = Some (VList l)) \/
   (exists d, env !! "error" = Some (VDict d)) ->
     fst (_request net uri data w) = Raise (PyError "TypeError")).
Proof.
  rewrite (_request_envelope net uri data w r env Hnet Hstatus Hctype Hjson).
  split; [|split].
  - intros -> ->. reflexivity.
  - intros [-> | [-> | [s ->]]]; reflexivity.
  - intros [[l ->] | [d ->]]; reflexivity.
Qed.

(** X11: a body that is no JSON object.  A list without the string error
    among its elements and a string without error inside are refused with
    the unexpected-response error; None, a boolean and a number make the
    test for the error field raise TypeError, which is no error of the
    library. *)
Theorem X11_body_not_an_object uri data w r body
    (Hnet : net (requests w) (request_of (self w) uri data) = http.Responded r)
    (Hstatus : http.status r < 400)
    (Hctype : str_in "application/json"
                (default EmptyString (http.content_type r)) = true)
    (Hjson : http.json r = Some body) :
  match body with
  | VDict _ => True
  | VList l =>
      existsb (fun x => py_eq_str x "error") l = false ->
      fst (_request net uri data w) =
        Raise (SonoffDIYError "Unexpected response from Sonoff DIY device"
                 (Some body))
  | VStr s =>
      str_in "error" s = false ->
      fst (_request net uri data w) =
        Raise (SonoffDIYError "Unexpected response from Sonoff DIY device"
                 (Some body))
  | VNone | VBool _ | VInt _ | VFloat _ =>
      fst (_request net uri data w) = Raise (PyError "TypeError")
  end.
Proof.
  run_request. rewrite Hnet. unfold http.raise_for_status.
  destruct (Z.leb_spec 400 (http.status r)); [lia|]. step.
  rewrite Hctype, Hjson. step.
  destruct body; step; try reflexivity; try exact I; intros ->; reflexivity.
Qed.

End MoreClient.

(** ** More on the facade *)

Section MoreFacade.

Context `{Runtime} (net : http.network).

(** X12: when the info call raises, update_info raises the same
    exception and the signal_strength request is never made; the snapshot
    is dropped for an error of the library and kept for any other
    exception. *)
Theorem X12_failed_info_call_stops_the_fetch w e
    (Hinfo : fst (_request net "info" None w) = Raise e) :
  fst (update_info net w) = Raise e /\
  requests (snd (update_info net w)) =
    (requests w ++ [request_of (self w) "info" None])%list /\
  info (self (snd (update_info net w))) =
    (if is_SonoffDIYError e then None else info (self w)).
Proof.
  rewrite update_info_unfold, Hinfo.
  destruct (is_SonoffDIYError e); repeat split.
Qed.

(** X13: when both calls return a JSON object, the snapshot is read from
    the info object overlaid with the signal_strength object, whose fields
    win; it is returned and stored.  If that mapping cannot be read,
    update_info raises what from_dict raises and the object keeps the
    snapshot it had. *)
Theorem X13_update_info_merges w d s
    (Hinfo : fst (_request net "info" None w) = Ok (VDict d))
    (Hsignal : fst (_request net "signal_strength" None
                      (snd (_request net "info" None w))) = Ok (VDict s)) :
  (forall key, (s ∪ d) !! key =
                 match s !! key with Some v => Some v | None => d !! key end) /\
  (forall i, Info.from_dict (device_id (self w)) (s ∪ d) = Ok i ->
     fst (update_info net w) = Ok i /\
     info (self (snd (update_info net w))) = Some i) /\
  (forall e, Info.from_dict (device_id (self w)) (s ∪ d) = Raise e ->
     fst (update_info net w) = Raise e /\
     info (self (snd (update_info net w))) = info (self w)).
Proof.
  split.
  { intros key. rewrite lookup_union. destruct (s !! key), (d !! key); reflexivity. }
  rewrite _request_world in Hsignal. fold (after_info w) in Hsignal.
  rewrite update_info_unfold, Hinfo, Hsignal.
  unfold finish. run_facade.
  change (device_id (self (after_signal w))) with (device_id (self w)).
  split.
  - intros i ->. split; reflexivity.
  - intros e ->. split; reflexivity.
Qed.

(** X14: a signal_strength answer without data is no error: the snapshot
    is read from the info object alone, and if that has no signalStrength
    the snapshot reports -100 dBm and 0 percent. *)
Theorem X14_signal_strength_without_data w d
    (Hinfo : fst (_request net "info" None w) = Ok (VDict d))
    (Hsignal : fst (_request net "signal_strength" None
                      (snd (_request net "info" None w))) = Ok VNone) :
  (forall i, Info.from_dict (device_id (self w)) d = Ok i ->
     fst (update_info net w) = Ok i /\
     info (self (snd (update_info net w))) = Some i) /\
  (d !! "signalStrength" = None ->
     exists i,
       fst (update_info net w) = Ok i /\
       Info.signal_strength i = VInt (-100) /\
       Info.signal_strength_percentage i = VInt 0).
Proof.
  rewrite _request_world in Hsignal. fold (after_info w) in Hsignal.
  rewrite update_info_unfold, Hinfo, Hsignal.
  unfold finish. run_facade.
  change (device_id (self (after_signal w))) with (device_id (self w)).
  split.
  - intros i ->. split; reflexivity.
  - intros Hnone.
    destruct (from_dict_int (device_id (self w)) d (-100))
      as (i & -> & Hs & Hp & _).
    { unfold Info.get. rewrite Hnone. reflexivity. }
    exists i. split; [reflexivity|]. split; [exact Hs | exact Hp].
Qed.

(** X15: an info answer whose data is None (a JSON null, or a string that
    decodes to it) counts as no data; data that is neither None nor an
    object makes update_info raise AttributeError, with the snapshot
    kept. *)
Theorem X15_info_data_not_an_object w data signal_strength
    (Hinfo : fst (_request net "info" None w) = Ok data)
    (Hsignal : fst (_request net "signal_strength" None
                      (snd (_request net "info" None w))) = Ok signal_strength) :
  match data with
  | VNone =>
      fst (update_info net w) =
        Raise (SonoffDIYError "Did not receive data from Sonoff DIY device" None) /\
      info (self (snd (update_info net w))) = None
  | VDict _ => True
  | _ =>
      fst (update_info net w) = Raise (PyError "AttributeError") /\
      info (self (snd (update_info net w))) = info (self w)
  end.
Proof.
  rewrite _request_world in Hsignal. fold (after_info w) in Hsignal.
  rewrite update_info_unfold, Hinfo, Hsignal.
  unfold finish.
  destruct data; try exact I; destruct signal_strength; split; reflexivity.
Qed.

(** The answer to a request does not depend on the snapshot the object
    holds. *)
Lemma _request_forgets_info uri data w i0 :
  fst (_request net uri data (snd (set_info i0 w))) =
  fst (_request net uri data w).
Proof.
  unfold _request, bind, get_self, session_request, logged, request_of.
  cbn [set_info fst snd self requests
       host port device_id request_timeout user_agent].
  destruct (net _ _) as [| | cls | r]; try reflexivity.
  destruct (http.raise_for_status r); try reflexivity.
  cbn beta iota delta [fst snd ret raise lift].
  destruct (negb _); [destruct (http.text r); reflexivity|].
  destruct (http.json r) as [v|]; try reflexivity.
  cbn beta iota delta [fst snd ret raise lift].
  destruct (py_contains "error" v) as [[]|]; try reflexivity.
  cbn beta iota delta [fst snd ret raise lift negb].
  destruct (py_getitem v "error") as [c|]; try reflexivity.
  cbn beta iota delta [fst snd ret raise lift negb].
  destruct (py_ne_0 c).
  - destruct (ERROR_CODES_get _ _); reflexivity.
  - destruct (py_contains "data" v) as [[]|]; try reflexivity.
    cbn beta iota delta [fst snd ret raise lift negb].
    destruct (py_getitem v "data") as [pl|]; try reflexivity.
    cbn beta iota delta [fst snd ret raise lift negb].
    destruct pl; try reflexivity.
    destruct (json_loads s); reflexivity.
Qed.

Lemma finish_forgets_info data ss w i0 :
  fst (finish data ss (snd (set_info i0 w))) = fst (finish data ss w) /\
  (forall i, fst (finish data ss w) = Ok i ->
     snd (finish data ss (snd (set_info i0 w))) = snd (finish data ss w)).
Proof.
  assert (Hfrom : forall d' : gmap string value,
    let k := (self <- get_self;
              i <- lift (Info.from_dict (device_id self) d');
              set_info (Some i);; ret i)%py in
    fst (k (snd (set_info i0 w))) = fst (k w) /\
    (forall i, fst (k w) = Ok i -> snd (k (snd (set_info i0 w))) = snd (k w))).
  { intros d' k. subst k.
    cbn beta iota zeta delta
      [fst snd bind ret raise lift get_self set_info self requests info
       device_id host port request_timeout user_agent].
    destruct (Info.from_dict (device_id (self w)) d');
      (split; [reflexivity | first [discriminate | intros; reflexivity]]). }
  unfold finish.
  destruct data as [|b|n|f|s|l|d].
  1-6: destruct ss; (split; [reflexivity | intros i Hi; cbv in Hi; discriminate Hi]).
  destruct ss as [|b'|n'|f'|s'|l'|d0]; try apply Hfrom;
    unfold update; unfold bind at 1; unfold bind at 2;
    (destruct (dict_update_seq d _) as [d'|];
     [apply Hfrom | split; [reflexivity | discriminate]]).
Qed.

(** X16: a fetch does not depend on the snapshot the object holds: with
    another snapshot in its place update_info returns or raises the same,
    and when it returns, the object it leaves is the same too, so the new
    snapshot stands in place of the old one with nothing of it left. *)
Theorem X16_fetch_replaces_the_snapshot w i0 :
  fst (update_info net (snd (set_info i0 w))) = fst (update_info net w) /\
  (forall i, fst (update_info net w) = Ok i ->
     snd (update_info net (snd (set_info i0 w))) = snd (update_info net w)).
Proof.
  rewrite !update_info_unfold.
  rewrite _request_forgets_info.
  destruct (fst (_request net "info" None w)) as [data|e1].
  2:{ split; [reflexivity | discriminate]. }
  change (after_info (snd (set_info i0 w)))
    with (snd (set_info i0 (after_info w))).
  rewrite _request_forgets_info.
  destruct (fst (_request net "signal_strength" None (after_info w)))
    as [ss|e2].
  2:{ split; [reflexivity | discriminate]. }
  change (after_signal (snd (set_info i0 w)))
    with (snd (set_info i0 (after_signal w))).
  apply finish_forgets_info.
Qed.

(** X17: turn_on and turn_off make one request each, to switch with the
    state asked for, return when it returns and raise what it raises; the
    object is left as it was, so a snapshot it holds still shows the state
    from before the call. *)
Theorem X17_switch w :
  let result (r : result value) : result unit :=
    match r with Ok _ => Ok tt | Raise e => Raise e end in
  turn_on net w =
    (result (fst (_request net "switch" (Some {[ "switch" := VStr "on" ]}) w)),
     logged w (request_of (self w) "switch"
                 (Some {[ "switch" := VStr "on" ]}))) /\
  turn_off net w =
    (result (fst (_request net "switch" (Some {[ "switch" := VStr "off" ]}) w)),
     logged w (request_of (self w) "switch"
                 (Some {[ "switch" := VStr "off" ]}))) /\
  info (self (snd (turn_on net w))) = info (self w) /\
  info (self (snd (turn_off net w))) = info (self w).
Proof.
  intros result. unfold turn_on, turn_off.
  rewrite !request_then_return. repeat split.
Qed.

(** X18: pulse_on sends pulse on, with a pulse_width exactly when a width
    is given (a width of 0 is sent as 0); pulse_off sends pulse off and no
    width.  Each makes this one request and leaves the object as it
    was. *)
Theorem X18_pulse w :
  (forall width,
     snd (pulse_on net (Some width) w) =
       logged w (request_of (self w) "pulse"
                   (Some (<["pulse_width" := VInt width]>
                          {[ "pulse" := VStr "on" ]}))) /\
     http.rq_data (request_of (self w) "pulse"
                     (Some (<["pulse_width" := VInt width]>
                            {[ "pulse" := VStr "on" ]}))) !! "pulse_width"
     = Some (VInt width)) /\
  snd (pulse_on net None w) =
    logged w (request_of (self w) "pulse" (Some {[ "pulse" := VStr "on" ]})) /\
  snd (pulse_off net w) =
    logged w (request_of (self w) "pulse" (Some {[ "pulse" := VStr "off" ]})) /\
  (forall v : string,
     ({[ "pulse" := VStr v ]} : gmap string value) !! "pulse_width" = None).
Proof.
  unfold pulse_on, pulse_off. rewrite !request_then_return.
  split; [intros width; rewrite request_then_return; split;
          [reflexivity | apply lookup_insert_eq]|].
  repeat split.
Qed.

(** X19: wifi, ota_unlock and ota_flash make one request each: wifi with
    the ssid and the password, ota_unlock with an empty data object,
    ota_flash with the URL under downloadUrl and the checksum under
    sha256sum; none of them checks its arguments or touches the object. *)
Theorem X19_wifi_and_ota w :
  (forall ssid password,
     snd (wifi net ssid password w) =
       logged w (request_of (self w) "wifi"
                   (Some (<["ssid" := VStr ssid]>
                          (<["password" := VStr password]> ∅))))) /\
  (snd (ota_unlock net w) = logged w (request_of (self w) "ota_unlock" None) /\
   http.rq_data (request_of (self w) "ota_unlock" None) = ∅) /\
  (forall url sha,
     snd (ota_flash net url sha w) =
       logged w (request_of (self w) "ota_flash"
                   (Some (<["downloadUrl" := VStr url]>
                          (<["sha256sum" := VStr sha]> ∅))))).
Proof.
  unfold wifi, ota_unlock, ota_flash.
  split; [intros; rewrite request_then_return; reflexivity|].
  split; [rewrite request_then_return; split; reflexivity|].
  intros; rewrite request_then_return; reflexivity.
Qed.

(** X20: whatever state power_on_state is called with, it makes no
    request or one startup request whose value is on, off or stay: the
    word restore never goes to the device. *)
Theorem X20_startup_wire_values w state :
  requests (snd (power_on_state net state w)) = requests w \/
  exists v,
    v ∈ ["on"; "off"; "stay"] /\
    requests (snd (power_on_state net state w)) =
      (requests w ++ [request_of (self w) "startup"
                        (Some {[ "startup" := VStr v ]})])%list.
Proof.
  unfold power_on_state.
  destruct (existsb (String.eqb state)
              [STATE_ON; STATE_OFF; STATE_RESTORE; STATE_STAY]) eqn:Hex;
    cbn [negb]; [|left; reflexivity].
  right. rewrite request_then_return. cbn [snd].
  destruct (String.eqb_spec state STATE_RESTORE) as [-> | Hne].
  - exists "stay". split; [set_solver | reflexivity].
  - exists state. split; [|reflexivity].
    apply existsb_exists in Hex as (x & Hin & Heq).
    apply String.eqb_eq in Heq as <-.
    cbn in Hin. destruct Hin as [<- | [<- | [<- | [<- | []]]]];
      set_solver.
Qed.

End MoreFacade.

(** ** The example script and the set-up of the object *)

Section MoreCallers.

Context `{Runtime} (net : http.network).

(** X21: the example script switches the device to the state it is not
    in: after a fetch that returns, its one further request is switch with
    on when the snapshot is off and with off when it is on; after a fetch
    that raises it makes no further request and raises the same. *)
Theorem X21_main_toggles w :
  (forall e, fst (update_info net w) = Raise e ->
     control.main net w = (Raise e, snd (update_info net w))) /\
  (forall i, fst (update_info net w) = Ok i ->
     let w' := snd (update_info net w) in
     requests (snd (control.main net w)) =
       (requests w' ++
        [request_of (self w') "switch"
           (Some {[ "switch" := VStr (if Info.on i then "off" else "on") ]})])%list).
Proof.
  unfold control.main. split.
  - intros e He. unfold bind at 1.
    destruct (update_info net w) as [[i|e'] w']; cbn in He |- *; congruence.
  - intros i Hi. cbv zeta. unfold bind at 1.
    destruct (update_info net w) as [[i'|e'] w']; cbn in Hi |- *; [|discriminate].
    injection Hi as ->.
    destruct (Info.on i); cbn [negb]; unfold turn_on, turn_off;
      rewrite request_then_return; reflexivity.
Qed.

(** X22: every request of an object carries the host, the port, the
    device id and the timeout it was made with, and as user agent the one
    given or, when none is given, PythonSonoffDIY/ followed by the version
    of the package; a new object holds no snapshot. *)
Theorem X22_request_of_a_new_object
    version host device_id port request_timeout user_agent uri data log :
  let diy := init version host device_id port request_timeout user_agent in
  let w := {| self := diy; requests := log |} in
  info diy = None /\
  requests (snd (_request net uri data w)) =
    (log ++
     [{| http.rq_host := host;
         http.rq_port := port;
         http.rq_uri := uri;
         http.rq_deviceid := device_id;
         http.rq_data := default ∅ data;
         http.rq_user_agent :=
           match user_agent with
           | Some agent => agent
           | None => ("PythonSonoffDIY/" ++ version)%string
           end;
         http.rq_timeout := request_timeout |}])%list.
Proof.
  intros diy w. split; [reflexivity|].
  rewrite _request_world. destruct user_agent; reflexivity.
Qed.

End MoreCallers.

(** ** The session of the object *)

(** Running calls one after the other. *)
Lemma session_run_app (calls1 calls2 : list session.call) op :
  session.run (calls1 ++ calls2) op = session.run calls2 (session.run calls1 op).
Proof. unfold session.run. apply fold_left_app. Qed.

(** X23: an object that was given a session never makes one and never
    closes one, whatever requests and closes follow: the session is left
    to the caller. *)
Theorem X23_supplied_session_is_left_open
    (calls : list session.call) (n : nat) (p : session.pool) :
  session.run calls (session.init (Some (session.Supplied n)), p) =
    (session.init (Some (session.Supplied n)), p).
Proof.
  induction calls as [|c calls IH] using rev_ind; [reflexivity|].
  rewrite session_run_app, IH. destruct c; reflexivity.
Qed.

Lemma own_session_invariant_run (calls : list session.call) (p0 : session.pool) :
  own_session_invariant p0 (session.run calls (session.init None, p0)).
Proof.
  induction calls as [|c calls IH] using rev_ind.
  { left. split; reflexivity. }
  rewrite session_run_app.
  destruct (session.run calls (session.init None, p0)) as [o p].
  destruct IH as [[Ho Hp] | (Ho & Hmade & k & Hclosed)]; cbn [fst snd] in *; subst.
  - destruct c; cbn.
    + right. repeat split. exists 0%nat. reflexivity.
    + left. split; reflexivity.
  - destruct c; cbn.
    + right. repeat split; [exact Hmade|]. exists k. exact Hclosed.
    + right. repeat split; [exact Hmade|]. exists (S k). cbn. rewrite Hclosed.
      reflexivity.
Qed.

(** X24: an object that was given no session makes one at its first
    request and no other after it; a close before the first request closes
    nothing; a close after it closes the session the object made, and the
    object never closes any other session. *)
Theorem X24_own_session_is_closed
    (calls : list session.call) (p0 : session.pool) :
  let op := session.run calls (session.init None, p0) in
  (session.Request ∉ calls -> op = (session.init None, p0)) /\
  (session.Request ∈ calls ->
     session._session (fst op) = Some (session.Created (session.made p0)) /\
     session.made (snd op) = S (session.made p0) /\
     session.closed (snd (session.__aexit__ (fst op) (snd op))) =
       session.Created (session.made p0) :: session.closed (snd op)) /\
  (exists k,
     session.closed (snd op) =
       (repeat (session.Created (session.made p0)) k ++ session.closed p0)%list).
Proof.
  intros op. subst op.
  pose proof (own_session_invariant_run calls p0) as Hinv.
  split; [|split].
  - clear Hinv. induction calls as [|c calls IH] using rev_ind; [reflexivity|].
    intros Hnot. rewrite session_run_app, IH.
    + destruct c; [|reflexivity].
      exfalso. apply Hnot. apply elem_of_app. right. apply list_elem_of_here.
    + intros Hin. apply Hnot. apply elem_of_app. left. exact Hin.
  - intros Hin.
    assert (Hmade : fst (session.run calls (session.init None, p0))
                    <> session.init None).
    { clear Hinv. induction calls as [|c calls IH] using rev_ind.
      - inversion Hin.
      - rewrite session_run_app.
        pose proof (own_session_invariant_run calls p0) as Hinv.
        destruct (session.run calls (session.init None, p0)) as [o p].
        destruct Hinv as [[Ho Hp] | (Ho & _)]; cbn [fst snd] in *; subst.
        + destruct c; cbn; [discriminate|].
          apply elem_of_app in Hin as [Hin | Hin]; [exact (IH Hin)|].
          apply list_elem_of_singleton in Hin. discriminate.
        + destruct c; cbn; discriminate. }
    destruct (session.run calls (session.init None, p0)) as [o p].
    destruct Hinv as [[Ho Hp] | (Ho & Hm & _)]; cbn [fst snd] in *; subst.
    + contradiction.
    + repeat split. exact Hm.
  - destruct Hinv as [[Ho Hp] | (_ & _ & k & Hk)].
    + exists 0%nat. rewrite Hp. reflexivity.
    + exists k. exact Hk.
Qed.

(** ** The further properties at the devices of the test-suite *)

Section MoreWitnesses.

Import decoder fixture.
Existing Instance decoder.runtime.

Lemma X2_witness :
  exists p1 p2,
    Info.signal_strength_percentage
      (Info.mk "a" false (VBool false) (VStr "off") (VInt 0) false
         (VInt 80) (VInt (-60)) (VStr EmptyString)) = VInt p1 /\
    Info.signal_strength_percentage
      (Info.mk "b" false (VBool false) (VStr "off") (VInt 0) false
         (VInt 100) (VInt (-48)) (VStr EmptyString)) = VInt p2 /\
    p1 <= p2.
Proof.
  apply (X2_percentage_monotone "a" "b"
           {[ "signalStrength" := VInt (-60) ]}
           {[ "signalStrength" := VInt (-48) ]} (-60) (-48)).
  - vm_compute. reflexivity.
  - vm_compute. reflexivity.
  - lia.
  - vm_compute. reflexivity.
  - vm_compute. reflexivity.
Defined.

Lemma X3_witness :
  Info.from_dict "100090ab1a" (<["seq" := VInt 26]> {[ "pulse" := VStr "on" ]}) =
  Info.from_dict "100090ab1a" {[ "pulse" := VStr "on" ]}.
Proof.
  apply X3_from_dict_ignores_other_keys.
  intros Hin. repeat (apply elem_of_cons in Hin as [Heq | Hin]; [discriminate|]).
  inversion Hin.
Defined.

Lemma X5_witness :
  (Info.on (Info.mk "100090ab1a" true (VBool false) (VStr "off") (VInt 0)
              false (VInt 0) (VInt (-100)) (VStr EmptyString)) = true <->
   ({[ "switch" := VStr "on" ]} : gmap string value) !! "switch"
   = Some (VStr "on")) /\
  (Info.pulse (Info.mk "100090ab1a" true (VBool false) (VStr "off") (VInt 0)
                 false (VInt 0) (VInt (-100)) (VStr EmptyString)) = true <->
   ({[ "switch" := VStr "on" ]} : gmap string value) !! "pulse"
   = Some (VStr "on")).
Proof.
  apply (X5_on_and_pulse "100090ab1a" {[ "switch" := VStr "on" ]}).
  vm_compute. reflexivity.
Defined.

(** The answer of [test_encoded_json_request] meets the conditions. *)
Lemma X8_witness :
  (exists v,
     fst (_request
            (routes [("/", json_response 200
                        (dq "{'seq': 26, 'error': 0, 'data': '{\'test\': \'ok\'}'}"))])
            "/" None fresh) = Ok v) \/
  (exists e,
     fst (_request
            (routes [("/", json_response 200
                        (dq "{'seq': 26, 'error': 0, 'data': '{\'test\': \'ok\'}'}"))])
            "/" None fresh) = Raise e /\
     is_SonoffDIYError e = true).
Proof.
  apply X8_library_errors_only.
  change (routes _ (requests fresh) (request_of (self fresh) "/" None))
    with (http.Responded
            (json_response 200
               (dq "{'seq': 26, 'error': 0, 'data': '{\'test\': \'ok\'}'}"))).
  intros _. split; [intros Hrefused; vm_compute in Hrefused; discriminate|].
  intros _.
  exists (list_to_map [("seq", VInt 26); ("error", VInt 0);
                       ("data", VStr (dq "{'test': 'ok'}"))]).
  split; [vm_compute; reflexivity|].
  split; [right; exists 0; vm_compute; reflexivity|].
  intros s Hs. vm_compute in Hs. injection Hs as <-.
  eexists. vm_compute. reflexivity.
Defined.

(** A content type with a parameter. *)
Lemma X9_witness :
  fst (_request
         (routes [("/", {| http.status := 200;
                           http.content_type :=
                             Some "application/json; charset=utf-8";
                           http.text := http.Text ok_text;
                           http.json := loads ok_text |})])
         "/" None fresh) = Ok VNone.
Proof.
  refine (proj1 (X9_content_type
                   (routes [("/", {| http.status := 200;
                                     http.content_type :=
                                       Some "application/json; charset=utf-8";
                                     http.text := http.Text ok_text;
                                     http.json := loads ok_text |})])
                   "/" None fresh _ _ _) _
            (list_to_map [("seq", VInt 1); ("error", VInt 0)]) _ _ _).
  - reflexivity.
  - vm_compute. reflexivity.
  - exists EmptyString, "; charset=utf-8". reflexivity.
  - vm_compute. reflexivity.
  - vm_compute. reflexivity.
  - vm_compute. reflexivity.
Defined.

(** An error field that is false. *)
Lemma X10_witness :
  fst (_request
         (routes [("/", json_response 200 (dq "{'seq': 1, 'error': false}"))])
         "/" None fresh) = Ok VNone.
Proof.
  refine (proj1 (X10_error_field_not_an_integer
                   (routes [("/", json_response 200
                               (dq "{'seq': 1, 'error': false}"))])
                   "/" None fresh _
                   (list_to_map [("seq", VInt 1); ("error", VBool false)])
                   _ _ _ _) _ _).
  - reflexivity.
  - vm_compute. reflexivity.
  - vm_compute. reflexivity.
  - vm_compute. reflexivity.
  - vm_compute. reflexivity.
  - vm_compute. reflexivity.
Defined.

(** A body that is an empty list. *)
Lemma X11_witness :
  fst (_request (routes [("/", json_response 200 "[]")]) "/" None fresh) =
    Raise (SonoffDIYError "Unexpected response from Sonoff DIY device"
             (Some (VList []))).
Proof.
  refine (X11_body_not_an_object
            (routes [("/", json_response 200 "[]")])
            "/" None fresh _ (VList []) _ _ _ _ _).
  - reflexivity.
  - vm_compute. reflexivity.
  - vm_compute. reflexivity.
  - vm_compute. reflexivity.
  - reflexivity.
Defined.

(** The info call is answered with status 404. *)
Lemma X12_witness :
  fst (update_info
         (routes [("info", plain_response 404 None "OMG PUPPIES!");
                  ("signal_strength", json_response 200 signal_text)])
         primed) =
    Raise (SonoffDIYConnectionError
             "Error occurred while communicating with Sonoff DIY device") /\
  requests (snd (update_info
         (routes [("info", plain_response 404 None "OMG PUPPIES!");
                  ("signal_strength", json_response 200 signal_text)])
         primed)) = ([] ++ [request_of diy "info" None])%list /\
  info (self (snd (update_info
         (routes [("info", plain_response 404 None "OMG PUPPIES!");
                  ("signal_strength", json_response 200 signal_text)])
         primed))) = None.
Proof.
  apply (X12_failed_info_call_stops_the_fetch
           (routes [("info", plain_response 404 None "OMG PUPPIES!");
                    ("signal_strength", json_response 200 signal_text)])
           primed
           (SonoffDIYConnectionError
              "Error occurred while communicating with Sonoff DIY device")).
  vm_compute. reflexivity.
Defined.

(** The info answer has a signal strength of its own: the one of the
    signal_strength answer wins. *)
Lemma X13_witness :
  exists i,
    fst (update_info
           (routes [("info",
                     json_response 200
                       (dq "{'seq': 1, 'error': 0, 'data': {'signalStrength': -90}}"));
                    ("signal_strength", json_response 200 signal_text)])
           fresh) = Ok i /\
    Info.signal_strength i = VInt (-48).
Proof.
  exists (Info.mk "100090ab1a" false (VBool false) (VStr "off") (VInt 0) false
            (VInt 100) (VInt (-48)) (VStr EmptyString)).
  split; [|reflexivity].
  refine (proj1 (proj1 (proj2 (X13_update_info_merges
            (routes [("info",
                      json_response 200
                        (dq "{'seq': 1, 'error': 0, 'data': {'signalStrength': -90}}"));
                     ("signal_strength", json_response 200 signal_text)])
            fresh {[ "signalStrength" := VInt (-90) ]}
            {[ "signalStrength" := VInt (-48) ]} _ _)) _ _)).
  - vm_compute. reflexivity.
  - vm_compute. reflexivity.
  - vm_compute. reflexivity.
Defined.

(** The signal_strength answer carries no data. *)
Lemma X14_witness :
  exists i,
    fst (update_info
           (routes [("info",
                     json_response 200
                       (dq "{'seq': 26, 'error': 0, 'data': {'pulse': 'on'}}"));
                    ("signal_strength", json_response 200 ok_text)])
           fresh) = Ok i /\
    Info.signal_strength i = VInt (-100) /\
    Info.signal_strength_percentage i = VInt 0.
Proof.
  refine (proj2 (X14_signal_strength_without_data
            (routes [("info",
                      json_response 200
                        (dq "{'seq': 26, 'error': 0, 'data': {'pulse': 'on'}}"));
                     ("signal_strength", json_response 200 ok_text)])
            fresh {[ "pulse" := VStr "on" ]} _ _) _).
  - vm_compute. reflexivity.
  - vm_compute. reflexivity.
  - vm_compute. reflexivity.
Defined.

(** The info answer carries a null as its data. *)
Lemma X15_witness :
  fst (update_info
         (routes [("info",
                   json_response 200 (dq "{'seq': 1, 'error': 0, 'data': null}"));
                  ("signal_strength", json_response 200 signal_text)])
         primed) =
    Raise (SonoffDIYError "Did not receive data from Sonoff DIY device" None) /\
  info (self (snd (update_info
         (routes [("info",
                   json_response 200 (dq "{'seq': 1, 'error': 0, 'data': null}"));
                  ("signal_strength", json_response 200 signal_text)])
         primed))) = None.
Proof.
  refine (X15_info_data_not_an_object
            (routes [("info",
                      json_response 200
                        (dq "{'seq': 1, 'error': 0, 'data': null}"));
                     ("signal_strength", json_response 200 signal_text)])
            primed VNone (VDict {[ "signalStrength" := VInt (-48) ]}) _ _).
  - vm_compute. reflexivity.
  - vm_compute. reflexivity.
Defined.

End MoreWitnesses.
